(** * Marketing campaign dashboard: the cleaning pipeline of [app.py]

    A shallow embedding of [load_and_clean_data] (app.py, lines 41-95) and of
    the top-level script that calls it (lines 97-235), followed by the
    properties of the cleaning pipeline.

    Numbers are integers ([Z]); a nullable number is an [option Z] ([None] is
    pandas' NaN).  A timestamp is the number of nanoseconds since
    1970-01-01T00:00, as in a datetime64[ns] column; [None] is NaT.  pandas and
    streamlit are libraries outside the repository: the two date parsers of
    [pd.to_datetime] are parameters of the pipeline, and a concrete instance
    of each is given for the worked examples. *)

From Stdlib Require Import ZArith Ascii String List Lia.
From stdpp Require Import gmap strings list fin_maps.

Local Open Scope string_scope.
Local Open Scope Z_scope.

(** ** Calendar arithmetic *)

Module Calendar.

Definition ns_per_day : Z := 86400 * 1000000000.

Definition is_leap (y : Z) : bool :=
  ((y mod 4 =? 0) && negb (y mod 100 =? 0)) || (y mod 400 =? 0).

Definition days_in_month (y m : Z) : Z :=
  if m =? 2 then (if is_leap y then 29 else 28)
  else if (m =? 4) || (m =? 6) || (m =? 9) || (m =? 11) then 30
  else 31.

Definition valid_date (y m d : Z) : bool :=
  (1 <=? m) && (m <=? 12) && (1 <=? d) && (d <=? days_in_month y m).

(** Days from 1970-01-01 to the proleptic Gregorian date [y]-[m]-[d]. *)
Definition days_from_civil (y m d : Z) : Z :=
  let y' := if m <=? 2 then y - 1 else y in
  let era := y' / 400 in
  let yoe := y' - era * 400 in
  let mp := if 2 <? m then m - 3 else m + 9 in
  let doy := (153 * mp + 2) / 5 + d - 1 in
  let doe := yoe * 365 + yoe / 4 - yoe / 100 + doy in
  era * 146097 + doe - 719468.

(** Midnight of [y]-[m]-[d] as a timestamp, when the date exists. *)
Definition timestamp (y m d : Z) : option Z :=
  if valid_date y m d then Some (days_from_civil y m d * ns_per_day)
  else None.

Definition digit (c : ascii) : option Z :=
  let n := Z.of_nat (nat_of_ascii c) in
  if (48 <=? n) && (n <=? 57) then Some (n - 48) else None.

Definition number2 (a b : ascii) : option Z :=
  match digit a, digit b with
  | Some x, Some y => Some (10 * x + y)
  | _, _ => None
  end.

Definition number4 (a b c d : ascii) : option Z :=
  match number2 a b, number2 c d with
  | Some x, Some y => Some (100 * x + y)
  | _, _ => None
  end.

Definition is_sep (seps : list ascii) (c : ascii) : bool :=
  existsb (Ascii.eqb c) seps.

(** [pd.to_datetime(s, format='%Y-%m-%d', errors='coerce')] on one string,
    for the zero-padded form [YYYY-MM-DD]: the whole string has to match,
    and a string that does not match, or names no calendar day, is coerced
    to NaT. *)
Definition strptime_Ymd (s : string) : option Z :=
  match s with
  | String y1 (String y2 (String y3 (String y4 (String s1
      (String m1 (String m2 (String s2
        (String d1 (String d2 EmptyString))))))))) =>
      if is_sep ["-"%char] s1 && is_sep ["-"%char] s2 then
        match number4 y1 y2 y3 y4, number2 m1 m2, number2 d1 d2 with
        | Some y, Some m, Some d => timestamp y m d
        | _, _, _ => None
        end
      else None
  | _ => None
  end.

(** A day-first reading of one string, [DD-MM-YYYY] or [DD/MM/YYYY]; the
    other strings of the column (from which pandas guesses a format) are
    not consulted. *)
Definition parse_dmy (column : list (option string)) (s : string)
  : option Z :=
  match s with
  | String d1 (String d2 (String s1 (String m1 (String m2 (String s2
      (String y1 (String y2 (String y3 (String y4 EmptyString))))))))) =>
      if is_sep ["-"%char; "/"%char] s1 && is_sep ["-"%char; "/"%char] s2
      then
        match number4 y1 y2 y3 y4, number2 m1 m2, number2 d1 d2 with
        | Some y, Some m, Some d => timestamp y m d
        | _, _, _ => None
        end
      else None
  | _ => None
  end.

End Calendar.

(** ** The data frame *)

(** A cell of the [Dt_Customer] column.  After [read_csv] the column has
    dtype object: a cell holds the text of the CSV field, or NaN when the
    field is empty.  After [pd.to_datetime] the column has dtype
    datetime64[ns]: a cell holds a timestamp or NaT. *)
Inductive dt_cell : Type :=
  | Obj (s : option string)
  | Dt64 (t : option Z).

(** One row of the frame: its index label, the columns of the CSV file that
    the pipeline reads, and the four columns that the pipeline derives.  A
    derived column that has not been assigned yet reads as null. *)
Record row : Type := mkRow {
  idx : nat;
  Year_Birth : Z;
  Income : option Z;
  Dt_Customer : dt_cell;
  Marital_Status : string;
  Education : string;
  MntWines : Z;
  MntFruits : Z;
  MntMeatProducts : Z;
  MntFishProducts : Z;
  MntSweetProducts : Z;
  MntGoldProds : Z;
  AcceptedCmp1 : Z;
  AcceptedCmp2 : Z;
  AcceptedCmp3 : Z;
  AcceptedCmp4 : Z;
  AcceptedCmp5 : Z;
  Response : Z;
  Age : option Z;
  Total_Spend : option Z;
  Total_Accepted_Campaigns : option Z;
  Tenure_Days : option Z
}.

(** A frame: the column names in order, and the rows in order. *)
Record DataFrame : Type := mkDataFrame {
  columns : list string;
  rows : list row
}.

(** Column assignment on one row, [df[c] = v]. *)
Definition set_Dt_Customer (v : dt_cell) (r : row) : row :=
  mkRow (idx r) (Year_Birth r) (Income r) v (Marital_Status r) (Education r)
    (MntWines r) (MntFruits r) (MntMeatProducts r) (MntFishProducts r)
    (MntSweetProducts r) (MntGoldProds r)
    (AcceptedCmp1 r) (AcceptedCmp2 r) (AcceptedCmp3 r) (AcceptedCmp4 r)
    (AcceptedCmp5 r) (Response r)
    (Age r) (Total_Spend r) (Total_Accepted_Campaigns r) (Tenure_Days r).

Definition set_Marital_Status (v : string) (r : row) : row :=
  mkRow (idx r) (Year_Birth r) (Income r) (Dt_Customer r) v (Education r)
    (MntWines r) (MntFruits r) (MntMeatProducts r) (MntFishProducts r)
    (MntSweetProducts r) (MntGoldProds r)
    (AcceptedCmp1 r) (AcceptedCmp2 r) (AcceptedCmp3 r) (AcceptedCmp4 r)
    (AcceptedCmp5 r) (Response r)
    (Age r) (Total_Spend r) (Total_Accepted_Campaigns r) (Tenure_Days r).

Definition set_Education (v : string) (r : row) : row :=
  mkRow (idx r) (Year_Birth r) (Income r) (Dt_Customer r) (Marital_Status r) v
    (MntWines r) (MntFruits r) (MntMeatProducts r) (MntFishProducts r)
    (MntSweetProducts r) (MntGoldProds r)
    (AcceptedCmp1 r) (AcceptedCmp2 r) (AcceptedCmp3 r) (AcceptedCmp4 r)
    (AcceptedCmp5 r) (Response r)
    (Age r) (Total_Spend r) (Total_Accepted_Campaigns r) (Tenure_Days r).

Definition set_Age (v : option Z) (r : row) : row :=
  mkRow (idx r) (Year_Birth r) (Income r) (Dt_Customer r) (Marital_Status r)
    (Education r)
    (MntWines r) (MntFruits r) (MntMeatProducts r) (MntFishProducts r)
    (MntSweetProducts r) (MntGoldProds r)
    (AcceptedCmp1 r) (AcceptedCmp2 r) (AcceptedCmp3 r) (AcceptedCmp4 r)
    (AcceptedCmp5 r) (Response r)
    v (Total_Spend r) (Total_Accepted_Campaigns r) (Tenure_Days r).

Definition set_Total_Spend (v : option Z) (r : row) : row :=
  mkRow (idx r) (Year_Birth r) (Income r) (Dt_Customer r) (Marital_Status r)
    (Education r)
    (MntWines r) (MntFruits r) (MntMeatProducts r) (MntFishProducts r)
    (MntSweetProducts r) (MntGoldProds r)
    (AcceptedCmp1 r) (AcceptedCmp2 r) (AcceptedCmp3 r) (AcceptedCmp4 r)
    (AcceptedCmp5 r) (Response r)
    (Age r) v (Total_Accepted_Campaigns r) (Tenure_Days r).

Definition set_Total_Accepted_Campaigns (v : option Z) (r : row) : row :=
  mkRow (idx r) (Year_Birth r) (Income r) (Dt_Customer r) (Marital_Status r)
    (Education r)
    (MntWines r) (MntFruits r) (MntMeatProducts r) (MntFishProducts r)
    (MntSweetProducts r) (MntGoldProds r)
    (AcceptedCmp1 r) (AcceptedCmp2 r) (AcceptedCmp3 r) (AcceptedCmp4 r)
    (AcceptedCmp5 r) (Response r)
    (Age r) (Total_Spend r) v (Tenure_Days r).

Definition set_Tenure_Days (v : option Z) (r : row) : row :=
  mkRow (idx r) (Year_Birth r) (Income r) (Dt_Customer r) (Marital_Status r)
    (Education r)
    (MntWines r) (MntFruits r) (MntMeatProducts r) (MntFishProducts r)
    (MntSweetProducts r) (MntGoldProds r)
    (AcceptedCmp1 r) (AcceptedCmp2 r) (AcceptedCmp3 r) (AcceptedCmp4 r)
    (AcceptedCmp5 r) (Response r)
    (Age r) (Total_Spend r) (Total_Accepted_Campaigns r) v.

(** ** The pandas operations the pipeline uses *)

Module Pandas.

(** [df[mask]]: the rows at which the boolean column [mask] is true, in
    their order. *)
Fixpoint select (mask : list bool) (l : list row) : list row :=
  match mask, l with
  | b :: mask', r :: l' =>
      if b then r :: select mask' l' else select mask' l'
  | _, _ => []
  end.

(** The column names after [df[c] = ...]: an existing column is
    overwritten in place, a new one is appended. *)
Definition add_column (c : string) (cols : list string) : list string :=
  if bool_decide (c ∈ cols) then cols else cols ++ [c].

(** [df[c] = col], with [set] the assignment of one cell of column [c]. *)
Definition assign {V : Type} (c : string) (set : V → row → row)
    (col : list V) (df : DataFrame) : DataFrame :=
  mkDataFrame (add_column c (columns df)) (zip_with set col (rows df)).

(** [df[mask]] on a frame. *)
Definition getitem_mask (mask : list bool) (df : DataFrame) : DataFrame :=
  mkDataFrame (columns df) (select mask (rows df)).

(** [s.notna()], [s < k] and [s.isnull()] on one nullable number: a
    comparison with NaN is false. *)
Definition notna {A : Type} (v : option A) : bool :=
  match v with Some _ => true | None => false end.

Definition isnull {A : Type} (v : option A) : bool :=
  match v with Some _ => false | None => true end.

Definition lt (k : Z) (v : option Z) : bool :=
  match v with Some x => x <? k | None => false end.

(** [df[cols].sum(axis=1)] on one row. *)
Definition sum_axis1 (cols : list (row → Z)) (r : row) : Z :=
  foldr (λ c acc, c r + acc) 0 cols.

(** [s.replace(d)] on one string: a value that is a key of [d] becomes the
    value stored under it, any other value stays. *)
Definition replace (d : gmap string string) (s : string) : string :=
  default s (d !! s).

(** [s.isnull()] on one cell of the date column: NaN in an object column,
    NaT in a datetime column. *)
Definition isnull_cell (c : dt_cell) : bool :=
  match c with Obj s => isnull s | Dt64 t => isnull t end.

(** The text of a cell of an object column, if it has one. *)
Definition text (c : dt_cell) : option string :=
  match c with Obj s => s | Dt64 _ => None end.

Section to_datetime.
(** The parser of [format='%Y-%m-%d'] on one string, and the parser of
    [dayfirst=True] on one string of a column whose texts are given
    (pandas guesses the format from the column). *)
Variable strptime : string → option Z.
Variable parse_dayfirst : list (option string) → string → option Z.

(** [pd.to_datetime(s, format='%Y-%m-%d', errors='coerce')] on one cell:
    a string is parsed, NaN becomes NaT, and a cell that already is a
    timestamp (or NaT) stays as it is. *)
Definition to_datetime_format (c : dt_cell) : option Z :=
  match c with
  | Obj (Some s) => strptime s
  | Obj None => None
  | Dt64 t => t
  end.

(** [pd.to_datetime(s, dayfirst=True, errors='coerce')] on a column. *)
Definition to_datetime_dayfirst (col : list dt_cell) : list (option Z) :=
  (λ c, match c with
        | Obj (Some s) => parse_dayfirst (text <$> col) s
        | Obj None => None
        | Dt64 t => t
        end) <$> col.
End to_datetime.

End Pandas.

(** ** The cleaning pipeline (app.py, lines 49-95) *)

Section Pipeline.
Import Pandas.

Variable strptime : string → option Z.
Variable parse_dayfirst : list (option string) → string → option Z.

Definition current_year : Z := 2014.

(** [pd.to_datetime(f"{current_year}-12-31")] *)
Definition reference_date : Z :=
  Calendar.days_from_civil current_year 12 31 * Calendar.ns_per_day.

Definition products : list (row → Z) :=
  [MntWines; MntFruits; MntMeatProducts; MntFishProducts; MntSweetProducts;
   MntGoldProds].

Definition campaigns : list (row → Z) :=
  [AcceptedCmp1; AcceptedCmp2; AcceptedCmp3; AcceptedCmp4; AcceptedCmp5;
   Response].

Definition marital_dict : gmap string string :=
  list_to_map
    [("Married", "Partner"); ("Together", "Partner");
     ("Single", "Single"); ("Divorced", "Single"); ("Widow", "Single");
     ("Alone", "Single");
     ("Absurd", "Other"); ("YOLO", "Other")].

Definition education_dict : gmap string string :=
  list_to_map
    [("Basic", "Undergraduate"); ("2n Cycle", "Master");
     ("Graduation", "Graduate"); ("Master", "Master"); ("PhD", "PhD")].

(** [(reference_date - t).dt.days] on one cell of the datetime column: the
    whole days of the difference, rounded down; NaT gives null.  By line 75
    the column has dtype datetime64, so the [Obj] case does not arise in
    the pipeline. *)
Definition days_until_reference (c : dt_cell) : option Z :=
  match c with
  | Dt64 (Some t) => Some ((reference_date - t) / Calendar.ns_per_day)
  | Dt64 None => None
  | Obj _ => None
  end.

(** line 54: [df = df.dropna(subset=['Income'])] *)
Definition drop_null_income (df : DataFrame) : DataFrame :=
  getitem_mask ((λ r, notna (Income r)) <$> rows df) df.

(** line 59: [df['Age'] = current_year - df['Year_Birth']] *)
Definition derive_age (df : DataFrame) : DataFrame :=
  assign "Age" set_Age
    ((λ r, Some (current_year - Year_Birth r)) <$> rows df) df.

(** line 63: [df['Total_Spend'] = df[products].sum(axis=1)] *)
Definition derive_total_spend (df : DataFrame) : DataFrame :=
  assign "Total_Spend" set_Total_Spend
    ((λ r, Some (sum_axis1 products r)) <$> rows df) df.

(** line 67: [df['Total_Accepted_Campaigns'] = df[campaigns].sum(axis=1)] *)
Definition derive_total_accepted (df : DataFrame) : DataFrame :=
  assign "Total_Accepted_Campaigns" set_Total_Accepted_Campaigns
    ((λ r, Some (sum_axis1 campaigns r)) <$> rows df) df.

(** line 70: [df['Dt_Customer'] = pd.to_datetime(df['Dt_Customer'],
    format='%Y-%m-%d', errors='coerce')].  The column is overwritten: its
    cells are timestamps or NaT from here on, and the text is gone. *)
Definition parse_dates_strict (df : DataFrame) : DataFrame :=
  assign "Dt_Customer" set_Dt_Customer
    ((λ r, Dt64 (to_datetime_format strptime (Dt_Customer r))) <$> rows df)
    df.

(** lines 72-73: [if df['Dt_Customer'].isnull().all(): df['Dt_Customer'] =
    pd.to_datetime(df['Dt_Customer'], dayfirst=True, errors='coerce')].
    The argument is the column as line 70 left it. *)
Definition parse_dates_fallback (df : DataFrame) : DataFrame :=
  if forallb isnull_cell (Dt_Customer <$> rows df)
  then assign "Dt_Customer" set_Dt_Customer
         (Dt64 <$> to_datetime_dayfirst parse_dayfirst
                     (Dt_Customer <$> rows df))
         df
  else df.

(** line 75: [df['Tenure_Days'] = (pd.to_datetime(...) -
    df['Dt_Customer']).dt.days] *)
Definition derive_tenure (df : DataFrame) : DataFrame :=
  assign "Tenure_Days" set_Tenure_Days
    ((λ r, days_until_reference (Dt_Customer r)) <$> rows df) df.

(** lines 79-83: [df['Marital_Status'] = df['Marital_Status'].replace(...)] *)
Definition normalize_marital (df : DataFrame) : DataFrame :=
  assign "Marital_Status" set_Marital_Status
    ((λ r, replace marital_dict (Marital_Status r)) <$> rows df) df.

(** lines 86-89: [df['Education'] = df['Education'].replace(...)] *)
Definition normalize_education (df : DataFrame) : DataFrame :=
  assign "Education" set_Education
    ((λ r, replace education_dict (Education r)) <$> rows df) df.

(** line 92: [df = df[df['Age'] < 100]] *)
Definition drop_age_outliers (df : DataFrame) : DataFrame :=
  getitem_mask ((λ r, lt 100 (Age r)) <$> rows df) df.

(** line 93: [df = df[df['Income'] < 600000]] *)
Definition drop_income_outliers (df : DataFrame) : DataFrame :=
  getitem_mask ((λ r, lt 600000 (Income r)) <$> rows df) df.

(** The statements of the pipeline, in the order of the source. *)
Definition steps : list (DataFrame → DataFrame) :=
  [drop_null_income; derive_age; derive_total_spend; derive_total_accepted;
   parse_dates_strict; parse_dates_fallback; derive_tenure;
   normalize_marital; normalize_education;
   drop_age_outliers; drop_income_outliers].

(** Lines 49-95 of [load_and_clean_data]: the frame that [read_csv]
    returned, cleaned. *)
Definition clean (df : DataFrame) : DataFrame :=
  let df := drop_null_income df in
  let df := derive_age df in
  let df := derive_total_spend df in
  let df := derive_total_accepted df in
  let df := parse_dates_strict df in
  let df := parse_dates_fallback df in
  let df := derive_tenure df in
  let df := normalize_marital df in
  let df := normalize_education df in
  let df := drop_age_outliers df in
  let df := drop_income_outliers df in
  df.

(** What lines 59-89 assign in one row. *)
Definition derive_row (r : row) : row :=
  let r := set_Age (Some (current_year - Year_Birth r)) r in
  let r := set_Total_Spend (Some (sum_axis1 products r)) r in
  let r := set_Total_Accepted_Campaigns (Some (sum_axis1 campaigns r)) r in
  let r :=
    set_Dt_Customer (Dt64 (to_datetime_format strptime (Dt_Customer r))) r in
  let r := set_Tenure_Days (days_until_reference (Dt_Customer r)) r in
  let r := set_Marital_Status (replace marital_dict (Marital_Status r)) r in
  let r := set_Education (replace education_dict (Education r)) r in
  r.

(** The rows that lines 54, 92 and 93 keep. *)
Definition survives (r : row) : bool :=
  match Income r with
  | Some i => (current_year - Year_Birth r <? 100) && (i <? 600000)
  | None => false
  end.

(** The columns of the file that no statement assigns. *)
Definition untouched (r : row) :=
  (idx r, Year_Birth r, Income r,
   (MntWines r, MntFruits r, MntMeatProducts r, MntFishProducts r,
    MntSweetProducts r, MntGoldProds r),
   (AcceptedCmp1 r, AcceptedCmp2 r, AcceptedCmp3 r, AcceptedCmp4 r,
    AcceptedCmp5 r, Response r)).

End Pipeline.

(** ** The script: file system, cache and page (app.py, lines 41-47, 97-235) *)

(** What the script puts on the page.  An element is recorded with its kind
    and its label or title; the numbers and figures it displays are not
    modelled. *)
Inductive element : Type :=
  | st_error (msg : string)
  | st_info (msg : string)
  | st_markdown (body : string)
  | st_title (body : string)
  | st_subheader (body : string)
  | st_sidebar_header (body : string)
  | st_sidebar_multiselect (label : string)
  | st_tabs (labels : list string)
  | st_metric (label : string)
  | st_plotly_chart (title : string).

(** The elements that display a KPI or a chart computed from the table. *)
Definition shows_data (e : element) : bool :=
  match e with
  | st_metric _ | st_plotly_chart _ => true
  | _ => false
  end.

(** A file at a path: a well-formed CSV file, read as a frame, or content
    that [read_csv] cannot parse.  No file at a path is [None] in the map. *)
Inductive file : Type :=
  | Csv (df : DataFrame)
  | Malformed.

Inductive exn : Type :=
  | FileNotFoundError
  | ParserError.

(** The state the script runs in: the files, the entries of
    [st.cache_data] (per argument: the value returned and the elements the
    call displayed), and the page so far. *)
Record world : Type := mkWorld {
  files : gmap string file;
  cache : gmap string (option DataFrame * list element);
  page : list element
}.

Inductive outcome (A : Type) : Type :=
  | Return (a : A)
  | Raise (e : exn).
Arguments Return {A} a.
Arguments Raise {A} e.

(** Computations of the script: state passing with exceptions. *)
Definition M (A : Type) : Type := world → outcome A * world.

Definition ret {A : Type} (a : A) : M A := λ w, (Return a, w).

Definition bind {A B : Type} (m : M A) (k : A → M B) : M B :=
  λ w, match m w with
       | (Return a, w') => k a w'
       | (Raise e, w') => (Raise e, w')
       end.

Notation "x <- m ;; k" := (bind m (λ x, k))
  (at level 100, m at next level, right associativity).
Notation "m ;;; k" := (bind m (λ _, k))
  (at level 100, right associativity).

(** [try: m except e: handler]: [handler] runs when [m] raises [e]; any
    other exception goes on to the caller. *)
Definition try_except {A : Type} (m : M A) (e : exn) (handler : M A) : M A :=
  λ w, match m w with
       | (Return a, w') => (Return a, w')
       | (Raise e', w') =>
           match e, e' with
           | FileNotFoundError, FileNotFoundError
           | ParserError, ParserError => handler w'
           | _, _ => (Raise e', w')
           end
       end.

(** A call that displays one element. *)
Definition display (e : element) : M unit :=
  λ w, (Return tt, mkWorld (files w) (cache w) (page w ++ [e])).

(** [pd.read_csv(file_path)] *)
Definition read_csv (file_path : string) : M DataFrame :=
  λ w, match files w !! file_path with
       | Some (Csv df) => (Return df, w)
       | Some Malformed => (Raise ParserError, w)
       | None => (Raise FileNotFoundError, w)
       end.

(** [@st.cache_data] on a function of one string: a call whose argument has
    an entry returns the stored value and displays the stored elements
    again; any other call runs the function and, when it returns, stores
    its value and the elements it displayed. *)
Definition st_cache_data (f : string → M (option DataFrame)) (arg : string)
  : M (option DataFrame) :=
  λ w, match cache w !! arg with
       | Some (v, shown) =>
           (Return v, mkWorld (files w) (cache w) (page w ++ shown))
       | None =>
           match f arg w with
           | (Return v, w') =>
               let shown := drop (length (page w)) (page w') in
               (Return v,
                mkWorld (files w') (<[arg := (v, shown)]> (cache w'))
                  (page w'))
           | (Raise e, w') => (Raise e, w')
           end
       end.

Section Script.
Variable strptime : string → option Z.
Variable parse_dayfirst : list (option string) → string → option Z.

Definition not_found_message (file_path : string) : string :=
  "File not found: " ++ file_path ++
  ". Please ensure the CSV file is in the same directory.".

(** Lines 42-95, the function under the decorator.  [inr v] is the early
    [return v] of the handler. *)
Definition load_and_clean_data_body (file_path : string)
  : M (option DataFrame) :=
  r <- try_except
         (df <- read_csv file_path ;; ret (inl df))
         FileNotFoundError
         (display (st_error (not_found_message file_path)) ;;;
          ret (inr None)) ;;
  match r with
  | inr v => ret v
  | inl df => ret (Some (clean strptime parse_dayfirst df))
  end.

(** Lines 41-42: [@st.cache_data def load_and_clean_data(file_path)] *)
Definition load_and_clean_data : string → M (option DataFrame) :=
  st_cache_data load_and_clean_data_body.

(** Lines 101-232, the branch [if df is not None]: the elements it
    displays, in order. *)
Definition dashboard (df : DataFrame) : M unit :=
  display (st_sidebar_header "🔍 Filter Data") ;;;
  (if bool_decide ("Country" ∈ columns df)
   then display (st_sidebar_multiselect "Select Country")
   else ret tt) ;;;
  display (st_sidebar_multiselect "Select Education") ;;;
  display (st_sidebar_multiselect "Select Marital Status") ;;;
  display (st_title "🚀 Marketing Campaign Analytics Dashboard") ;;;
  display (st_markdown
    "Analysing customer behavior, spending patterns, and campaign effectiveness.") ;;;
  display (st_metric "Total Customers") ;;;
  display (st_metric "Avg Income") ;;;
  display (st_metric "Avg Total Spend") ;;;
  display (st_metric "Avg Campaigns Accepted") ;;;
  display (st_markdown "---") ;;;
  display (st_tabs ["📢 Campaign Performance"; "💰 Spending Analysis";
                    "👥 Customer Segmentation"]) ;;;
  display (st_subheader "Which customer segments accept campaigns?") ;;;
  display (st_plotly_chart "Acceptance Rate by Campaign") ;;;
  display (st_plotly_chart "Response Rate by Education Level") ;;;
  display (st_plotly_chart "Response Rate by Marital Status") ;;;
  display (st_subheader "Spending Patterns & Product Preferences") ;;;
  display (st_plotly_chart
    "Average Spending Breakdown by Product Category") ;;;
  display (st_plotly_chart "Relationship: Income vs. Total Spend") ;;;
  display (st_plotly_chart "Distribution of Total Spending by Age Group") ;;;
  display (st_subheader "Customer Demographics Analysis") ;;;
  display (st_plotly_chart "Customer Age Distribution") ;;;
  display (st_plotly_chart "Customer Income Distribution") ;;;
  (if bool_decide ("Country" ∈ columns df)
   then display (st_plotly_chart "Customer Distribution by Country")
   else ret tt).

(** Lines 99-235: the script from the call of [load_and_clean_data] on. *)
Definition app : M unit :=
  df <- load_and_clean_data "marketing_campaign_data.csv" ;;
  match df with
  | Some df => dashboard df
  | None =>
      display (st_info
        "Awaiting data load. Please ensure the CSV file is present.")
  end.

End Script.

(** ** The specification's wording, and sample inputs *)

Section Specification.
Import Pandas.

Variable strptime : string → option Z.
Variable parse_dayfirst : list (option string) → string → option Z.

(** Step 6 as the specification words it. *)
Definition marital_spec (s : string) : string :=
  if bool_decide (s ∈ ["Married"; "Together"]) then "Partner"
  else if bool_decide (s ∈ ["Single"; "Divorced"; "Widow"; "Alone"])
  then "Single"
  else if bool_decide (s ∈ ["Absurd"; "YOLO"]) then "Other"
  else s.

(** Step 7 as the specification words it. *)
Definition education_spec (s : string) : string :=
  if bool_decide (s = "Basic") then "Undergraduate"
  else if bool_decide (s = "2n Cycle") then "Master"
  else if bool_decide (s = "Graduation") then "Graduate"
  else if bool_decide (s = "Master") then "Master"
  else if bool_decide (s = "PhD") then "PhD"
  else s.

(** Step 5 as the specification words it: the strict parse of the column
    and, if every value fails it, the day-first parse of the whole original
    column. *)
Definition parse_dates_as_specified (col : list dt_cell) : list (option Z) :=
  let strict := to_datetime_format strptime <$> col in
  if forallb isnull strict then to_datetime_dayfirst parse_dayfirst col
  else strict.

(** The bounds on an output row as the specification words them:
    [Income] not null, [Income < 600000] and [0 <= Age < 100]. *)
Definition within_specified_bounds (r : row) : Prop :=
  ∃ i a, Income r = Some i ∧ i < 600000 ∧ Age r = Some a ∧ 0 ≤ a < 100.

(** The columns of the file that the pipeline reads (section 6 of the
    specification); the file may have more. *)
Definition raw_columns : list string :=
  ["Year_Birth"; "Income"; "Dt_Customer"; "Marital_Status"; "Education";
   "MntWines"; "MntFruits"; "MntMeatProducts"; "MntFishProducts";
   "MntSweetProducts"; "MntGoldProds";
   "AcceptedCmp1"; "AcceptedCmp2"; "AcceptedCmp3"; "AcceptedCmp4";
   "AcceptedCmp5"; "Response"].

Definition derived_columns : list string :=
  ["Age"; "Total_Spend"; "Total_Accepted_Campaigns"; "Tenure_Days"].

End Specification.

Module Sample.

(** A row as [read_csv] returns it: the derived columns are not there yet. *)
Definition csv_row (i : nat) (year_birth : Z) (income : option Z)
    (dt_customer marital education : string) (wines : Z) (response : Z)
  : row :=
  mkRow i year_birth income (Obj (Some dt_customer)) marital education
    wines 0 0 0 0 0 0 0 0 0 0 response None None None None.

(** The row of the worked example of the specification. *)
Definition married_1970 : row :=
  csv_row 0 1970 (Some 50000) "2013-06-15" "Married" "Basic" 100 1.

(** A row whose enrollment date is written day first. *)
Definition day_first : row :=
  csv_row 0 1970 (Some 50000) "15-06-2013" "Married" "Basic" 100 1.

(** A row whose year of birth lies after the reference year. *)
Definition born_2020 : row :=
  csv_row 1 2020 (Some 50000) "2013-06-15" "Single" "PhD" 100 0.

(** A row without income. *)
Definition no_income : row :=
  csv_row 2 1980 None "2013-06-15" "YOLO" "Master" 5 0.

Definition header : list string := "ID" :: raw_columns ++ ["Country"].

Definition table (l : list row) : DataFrame := mkDataFrame header l.

Definition file_name : string := "marketing_campaign_data.csv".

(** A world with the file in place, and one without it; nothing cached,
    nothing displayed. *)
Definition with_file (l : list row) : world :=
  mkWorld {[ file_name := Csv (table l) ]} ∅ [].

Definition without_file : world := mkWorld ∅ ∅ [].

End Sample.

(** The elements that a computation displays when it starts on an empty
    page, with no file and nothing cached. *)
Definition shown {A : Type} (m : M A) : list element :=
  page (snd (m (mkWorld ∅ ∅ []))).

(** [m] returns [a], displays the elements [els] after those of the page,
    and leaves the files and the cache alone. *)
Definition appends {A : Type} (m : M A) (a : A) (els : list element) : Prop :=
  ∀ w, m w = (Return a, mkWorld (files w) (cache w) (page w ++ els)).

(** ** The views of the dashboard (app.py, lines 114-120 and 201) *)

Module View.
Import Pandas.

(** [s.unique()]: the values of a column in the order of their first
    appearance; [seen] holds the values met so far. *)
Fixpoint unique_from (seen l : list string) : list string :=
  match l with
  | [] => []
  | x :: l' =>
      if bool_decide (x ∈ seen) then unique_from seen l'
      else x :: unique_from (x :: seen) l'
  end.

Definition unique (l : list string) : list string := unique_from [] l.

(** [s.isin(selected)] on one cell. *)
Definition isin (selected : list string) (v : string) : bool :=
  bool_decide (v ∈ selected).

(** The options, and the default selection, of the two multiselects of
    lines 115 and 119: [df['Education'].unique()] and
    [df['Marital_Status'].unique()]. *)
Definition education_options (df : DataFrame) : list string :=
  unique (Education <$> rows df).

Definition marital_options (df : DataFrame) : list string :=
  unique (Marital_Status <$> rows df).

(** line 116: [df_filtered =
    df_filtered[df_filtered['Education'].isin(selected_education)]] *)
Definition filter_education (selected_education : list string)
    (df_filtered : DataFrame) : DataFrame :=
  getitem_mask ((λ r, isin selected_education (Education r))
                  <$> rows df_filtered) df_filtered.

(** line 120: [df_filtered =
    df_filtered[df_filtered['Marital_Status'].isin(selected_marital)]] *)
Definition filter_marital (selected_marital : list string)
    (df_filtered : DataFrame) : DataFrame :=
  getitem_mask ((λ r, isin selected_marital (Marital_Status r))
                  <$> rows df_filtered) df_filtered.

(** Lines 114-120 on the frame that the country filter of lines 108-112
    hands on (the cleaned table itself when the file has no [Country]
    column). *)
Definition sidebar_filters (selected_education selected_marital : list string)
    (df_filtered : DataFrame) : DataFrame :=
  let df_filtered := filter_education selected_education df_filtered in
  let df_filtered := filter_marital selected_marital df_filtered in
  df_filtered.

(** [pd.cut(x, bins=bins, labels=labels)] on one number: the label of the
    interval [(lo, hi]] of consecutive bin edges that holds [x]; outside
    every interval the result is null. *)
Fixpoint cut (bins : list Z) (labels : list string) (x : Z) : option string :=
  match bins with
  | [] => None
  | lo :: bins' =>
      match bins', labels with
      | hi :: _, label :: labels' =>
          if (lo <? x) && (x <=? hi) then Some label
          else cut bins' labels' x
      | _, _ => None
      end
  end.

(** line 201: one cell of [pd.cut(df_filtered['Age'], bins=[0, 30, 45, 60,
    100], labels=['<30', '30-45', '46-60', '60+'])]. *)
Definition age_group (age : option Z) : option string :=
  match age with
  | Some a => cut [0; 30; 45; 60; 100] ["<30"; "30-45"; "46-60"; "60+"] a
  | None => None
  end.

End View.

(** ** Lemmas on the pandas operations *)

Section PandasLemmas.
Import Pandas.

(** Selecting with a mask computed from the rows themselves is a filter. *)
Lemma select_fmap (f : row → bool) (l : list row) :
  select (f <$> l) l = List.filter f l.
Proof.
  induction l as [|r l IH]; [done|].
  cbn. rewrite IH. done.
Qed.

(** Assigning a column computed from the rows themselves is a map. *)
Lemma zip_with_fmap_same {V : Type} (set : V → row → row) (g : row → V)
    (l : list row) :
  zip_with set (g <$> l) l = (λ r, set (g r) r) <$> l.
Proof.
  induction l as [|r l IH]; [done|].
  cbn. rewrite IH. done.
Qed.

Lemma rows_assign_fmap {V : Type} c (set : V → row → row) (g : row → V) df :
  rows (assign c set (g <$> rows df) df) = (λ r, set (g r) r) <$> rows df.
Proof. cbn. apply zip_with_fmap_same. Qed.

Lemma rows_getitem_mask (f : row → bool) df :
  rows (getitem_mask (f <$> rows df) df) = List.filter f (rows df).
Proof. cbn. apply select_fmap. Qed.

Lemma add_column_elem c c' cols :
  c' ∈ add_column c cols ↔ c' ∈ cols ∨ c' = c.
Proof.
  unfold add_column. case_bool_decide as Hc.
  - split; [auto|]. intros [?| ->]; done.
  - rewrite elem_of_app, list_elem_of_singleton. done.
Qed.

Lemma add_column_idem c cols :
  add_column c (add_column c cols) = add_column c cols.
Proof.
  unfold add_column at 1. rewrite bool_decide_true; [done|].
  apply add_column_elem. by right.
Qed.

Lemma filter_sublist {A : Type} (f : A → bool) (l : list A) :
  List.filter f l `sublist_of` l.
Proof.
  induction l as [|x l IH]; cbn; [constructor|].
  destruct (f x); by constructor.
Qed.

Lemma fmap_filter_sublist {A B : Type} (k : A → B) (f : A → bool)
    (l : list A) :
  k <$> List.filter f l `sublist_of` k <$> l.
Proof. apply fmap_sublist, filter_sublist. Qed.

Lemma elem_of_filter {A : Type} (f : A → bool) (l : list A) (x : A) :
  x ∈ List.filter f l ↔ x ∈ l ∧ f x = true.
Proof. rewrite !list_elem_of_In. apply filter_In. Qed.

Lemma set_Dt_Customer_same r : set_Dt_Customer (Dt_Customer r) r = r.
Proof. by destruct r. Qed.

(** On a column of dtype datetime64 the day-first parse has nothing to
    parse: every cell is returned as it is. *)
Lemma to_datetime_dayfirst_datetime64 parse_dayfirst (l : list row) :
  Forall (λ r, ∃ t, Dt_Customer r = Dt64 t) l →
  zip_with set_Dt_Customer
    (Dt64 <$> to_datetime_dayfirst parse_dayfirst (Dt_Customer <$> l)) l
  = l.
Proof.
  unfold to_datetime_dayfirst.
  generalize (text <$> (Dt_Customer <$> l)) as texts.
  intros texts Hl. induction Hl as [|r l [t Ht] _ IH]; [done|].
  cbn. rewrite IH, Ht. cbn. rewrite <- Ht, set_Dt_Customer_same. done.
Qed.

End PandasLemmas.

(** ** The pipeline, row by row *)

Section RowByRow.
Import Pandas.

Variable strptime : string → option Z.
Variable parse_dayfirst : list (option string) → string → option Z.

Lemma filter_fmap {A B : Type} (f : A → B) (p : B → bool) (l : list A) :
  List.filter p (f <$> l) = f <$> List.filter (λ x, p (f x)) l.
Proof.
  induction l as [|x l IH]; [done|].
  cbn. destruct (p (f x)); cbn; by rewrite IH.
Qed.

Lemma filter_filter {A : Type} (p q : A → bool) (l : list A) :
  List.filter p (List.filter q l) = List.filter (λ x, q x && p x) l.
Proof.
  induction l as [|x l IH]; [done|].
  cbn. destruct (q x); cbn; [destruct (p x)|]; by rewrite IH.
Qed.

(** Line 73 changes nothing: it parses the column that line 70 wrote,
    whose cells are timestamps or NaT, not the text of the file. *)
Lemma parse_dates_fallback_strict df :
  parse_dates_fallback parse_dayfirst (parse_dates_strict strptime df)
  = parse_dates_strict strptime df.
Proof.
  unfold parse_dates_fallback.
  destruct (forallb _ _); [|done].
  unfold assign at 1.
  rewrite to_datetime_dayfirst_datetime64.
  - unfold parse_dates_strict, assign. cbn [columns rows].
    by rewrite add_column_idem.
  - unfold parse_dates_strict. rewrite rows_assign_fmap.
    apply Forall_fmap, Forall_forall. intros r _. cbn. eauto.
Qed.

Lemma clean_unfold df :
  clean strptime parse_dayfirst df
  = drop_income_outliers (drop_age_outliers (normalize_education
      (normalize_marital (derive_tenure (parse_dates_strict strptime
        (derive_total_accepted (derive_total_spend (derive_age
          (drop_null_income df))))))))).
Proof. unfold clean. cbv zeta. by rewrite parse_dates_fallback_strict. Qed.

(** The output rows are the surviving input rows, each with its derived
    and normalized columns, in the order of the input. *)
Lemma clean_rows df :
  rows (clean strptime parse_dayfirst df)
  = derive_row strptime <$> List.filter survives (rows df).
Proof.
  rewrite clean_unfold.
  unfold drop_income_outliers, drop_age_outliers.
  rewrite !rows_getitem_mask.
  unfold normalize_education, normalize_marital, derive_tenure,
    parse_dates_strict, derive_total_accepted, derive_total_spend,
    derive_age.
  rewrite !rows_assign_fmap. unfold drop_null_income.
  rewrite rows_getitem_mask.
  rewrite <- !list_fmap_compose.
  rewrite filter_filter, filter_fmap, filter_filter.
  f_equal. apply filter_ext. intros r. unfold survives.
  destruct r as [? ? [i|] ? ? ? ? ? ? ? ? ? ? ? ? ? ? ? ? ? ? ?]; cbn; [|done].
  done.
Qed.

Lemma elem_of_clean r' df :
  r' ∈ rows (clean strptime parse_dayfirst df) ↔
  ∃ r, r' = derive_row strptime r ∧ r ∈ rows df ∧ survives r = true.
Proof.
  rewrite clean_rows, list_elem_of_fmap.
  split; intros (r & -> & Hr); exists r; split; try done.
  - by apply elem_of_filter.
  - by apply elem_of_filter.
Qed.

Lemma untouched_derive_row r : untouched (derive_row strptime r) = untouched r.
Proof. reflexivity. Qed.

Lemma Marital_Status_derive_row r :
  Marital_Status (derive_row strptime r)
  = replace marital_dict (Marital_Status r).
Proof. reflexivity. Qed.

Lemma Education_derive_row r :
  Education (derive_row strptime r) = replace education_dict (Education r).
Proof. reflexivity. Qed.

Lemma Dt_Customer_derive_row r :
  Dt_Customer (derive_row strptime r)
  = Dt64 (to_datetime_format strptime (Dt_Customer r)).
Proof. reflexivity. Qed.

Lemma Tenure_Days_derive_row r :
  Tenure_Days (derive_row strptime r)
  = days_until_reference (Dt_Customer (derive_row strptime r)).
Proof. reflexivity. Qed.

End RowByRow.

(** ** Properties of the cleaning pipeline *)

Import Pandas.

(** C1, as amended.  Every row of the cleaned table has an income, below
    600000, and an age below 100; the age is 2014 minus the year of birth and
    has no lower bound: it is negative for a year of birth after 2014.  So a
    row with age 100 or income 600000 is not in the output. *)
Theorem clean_income_age_bounds strptime parse_dayfirst df r :
  r ∈ rows (clean strptime parse_dayfirst df) →
  ∃ i a, Income r = Some i ∧ i < 600000 ∧
         Age r = Some a ∧ a < 100 ∧ a = current_year - Year_Birth r.
Proof.
  intros (r0 & -> & _ & Hs)%elem_of_clean.
  unfold survives in Hs.
  destruct (Income r0) as [i|] eqn:Hi; [|done].
  apply andb_true_iff in Hs as [Ha Hi'].
  exists i, (current_year - Year_Birth r0). cbn.
  repeat split; [done|lia|lia].
Qed.

Lemma clean_income_age_bounds_witness :
  let df := Sample.table [Sample.married_1970; Sample.no_income] in
  let r := derive_row Calendar.strptime_Ymd Sample.married_1970 in
  r ∈ rows (clean Calendar.strptime_Ymd Calendar.parse_dmy df) ∧
  ∃ i a, Income r = Some i ∧ i < 600000 ∧
         Age r = Some a ∧ a < 100 ∧ a = current_year - Year_Birth r.
Proof.
  assert (H : derive_row Calendar.strptime_Ymd Sample.married_1970
              ∈ rows (clean Calendar.strptime_Ymd Calendar.parse_dmy
                        (Sample.table
                           [Sample.married_1970; Sample.no_income]))).
  { vm_compute. constructor. }
  split; [exact H|].
  exact (clean_income_age_bounds _ _ _ _ H).
Defined.

(** C1 as the specification states it fails: a row born in 2020 has age -6,
    which is below 100, and stays in the output. *)
Lemma clean_keeps_negative_age :
  ∃ r, r ∈ rows (clean Calendar.strptime_Ymd Calendar.parse_dmy
                   (Sample.table [Sample.born_2020])) ∧
       Age r = Some (-6) ∧ ¬ within_specified_bounds r.
Proof.
  exists (derive_row Calendar.strptime_Ymd Sample.born_2020).
  split; [vm_compute; constructor|]. split; [done|].
  intros (i & a & _ & _ & Ha & Hlo & _).
  vm_compute in Ha. injection Ha as <-. lia.
Qed.

(** C3.  In every row of the cleaned table, [Total_Spend] is the sum of the
    six spend columns of that row and [Total_Accepted_Campaigns] the sum of
    its six acceptance flags, and these twelve columns are those of a row of
    the input. *)
Theorem clean_totals_exact strptime parse_dayfirst df r :
  r ∈ rows (clean strptime parse_dayfirst df) →
  Total_Spend r
    = Some (MntWines r + MntFruits r + MntMeatProducts r + MntFishProducts r
            + MntSweetProducts r + MntGoldProds r) ∧
  Total_Accepted_Campaigns r
    = Some (AcceptedCmp1 r + AcceptedCmp2 r + AcceptedCmp3 r + AcceptedCmp4 r
            + AcceptedCmp5 r + Response r) ∧
  ∃ r0, r0 ∈ rows df ∧ untouched r0 = untouched r.
Proof.
  intros (r0 & -> & Hr0 & _)%elem_of_clean.
  repeat split.
  - cbn. f_equal. lia.
  - cbn. f_equal. lia.
  - exists r0. split; [done|]. symmetry. apply untouched_derive_row.
Qed.

Lemma clean_totals_exact_witness :
  let df := Sample.table [Sample.married_1970; Sample.no_income] in
  let r := derive_row Calendar.strptime_Ymd Sample.married_1970 in
  r ∈ rows (clean Calendar.strptime_Ymd Calendar.parse_dmy df) ∧
  Total_Spend r = Some (100 + 0 + 0 + 0 + 0 + 0) ∧
  Total_Accepted_Campaigns r = Some (0 + 0 + 0 + 0 + 0 + 1).
Proof.
  assert (H : derive_row Calendar.strptime_Ymd Sample.married_1970
              ∈ rows (clean Calendar.strptime_Ymd Calendar.parse_dmy
                        (Sample.table
                           [Sample.married_1970; Sample.no_income]))).
  { vm_compute. constructor. }
  split; [exact H|].
  destruct (clean_totals_exact _ _ _ _ H) as (Hs & Hc & _).
  split; [exact Hs|exact Hc].
Defined.

(** Whole days between the reference date and midnight of day number [k]. *)
Lemma whole_days_until_reference (k : Z) :
  (reference_date - k * Calendar.ns_per_day) / Calendar.ns_per_day
  = Calendar.days_from_civil current_year 12 31 - k.
Proof.
  unfold reference_date.
  rewrite <- Z.mul_sub_distr_r. apply Z.div_mul. done.
Qed.

(** C4.  A row of the input that survives the filters and whose enrollment
    date fails the parse is in the output, with a null date and a null
    [Tenure_Days].  In every row of the output, [Tenure_Days] is the number
    of whole days from the parsed date to 2014-12-31: the difference of the
    day numbers when the timestamp is midnight of a day. *)
Theorem clean_tenure strptime parse_dayfirst df :
  (∀ r, r ∈ rows df → survives r = true →
        to_datetime_format strptime (Dt_Customer r) = None →
        ∃ r', r' ∈ rows (clean strptime parse_dayfirst df) ∧
              untouched r' = untouched r ∧
              Dt_Customer r' = Dt64 None ∧ Tenure_Days r' = None) ∧
  (∀ r' t, r' ∈ rows (clean strptime parse_dayfirst df) →
           Dt_Customer r' = Dt64 (Some t) →
           Tenure_Days r'
             = Some ((reference_date - t) / Calendar.ns_per_day) ∧
           ∀ k, t = k * Calendar.ns_per_day →
                Tenure_Days r'
                  = Some (Calendar.days_from_civil 2014 12 31 - k)).
Proof.
  split.
  - intros r Hr Hs Hfail. exists (derive_row strptime r).
    split; [apply elem_of_clean; eauto|].
    split; [apply untouched_derive_row|].
    cbn. rewrite Hfail. done.
  - intros r' t (r & -> & _ & _)%elem_of_clean Ht.
    cbn in Ht. injection Ht as Ht.
    assert (Tenure_Days (derive_row strptime r)
            = Some ((reference_date - t) / Calendar.ns_per_day)) as Hd.
    { cbn. rewrite Ht. done. }
    split; [done|]. intros k ->.
    rewrite Hd, whole_days_until_reference. done.
Qed.

Lemma clean_tenure_witness :
  let bad := Sample.csv_row 3 1980 (Some 30000) "soon" "Alone" "PhD" 7 0 in
  let df := Sample.table [Sample.married_1970; bad] in
  let out := rows (clean Calendar.strptime_Ymd Calendar.parse_dmy df) in
  (bad ∈ rows df ∧ survives bad = true ∧
   to_datetime_format Calendar.strptime_Ymd (Dt_Customer bad) = None ∧
   ∃ r', r' ∈ out ∧ untouched r' = untouched bad ∧
         Dt_Customer r' = Dt64 None ∧ Tenure_Days r' = None) ∧
  (let r' := derive_row Calendar.strptime_Ymd Sample.married_1970 in
   r' ∈ out ∧
   Dt_Customer r' = Dt64 (Some (15871 * Calendar.ns_per_day)) ∧
   Tenure_Days r' = Some (Calendar.days_from_civil 2014 12 31 - 15871)).
Proof.
  cbv zeta.
  pose proof (clean_tenure Calendar.strptime_Ymd Calendar.parse_dmy
    (Sample.table
       [Sample.married_1970;
        Sample.csv_row 3 1980 (Some 30000) "soon" "Alone" "PhD" 7 0]))
    as [Hnull Hdays].
  split.
  - assert (Hin : Sample.csv_row 3 1980 (Some 30000) "soon" "Alone" "PhD" 7 0
                  ∈ rows (Sample.table
                     [Sample.married_1970;
                      Sample.csv_row 3 1980 (Some 30000) "soon" "Alone" "PhD"
                        7 0])).
    { cbn. constructor. constructor. }
    split; [exact Hin|]. split; [reflexivity|]. split; [reflexivity|].
    exact (Hnull _ Hin eq_refl eq_refl).
  - assert (Hin : derive_row Calendar.strptime_Ymd Sample.married_1970
                  ∈ rows (clean Calendar.strptime_Ymd Calendar.parse_dmy
                     (Sample.table
                        [Sample.married_1970;
                         Sample.csv_row 3 1980 (Some 30000) "soon" "Alone"
                           "PhD" 7 0]))).
    { vm_compute. constructor. }
    split; [exact Hin|]. split; [reflexivity|].
    exact (proj2 (Hdays _ (15871 * Calendar.ns_per_day) Hin eq_refl)
             15871 eq_refl).
Defined.

(** The dictionaries of lines 79-89 are the mappings of the specification. *)
Lemma replace_marital_dict s : replace marital_dict s = marital_spec s.
Proof.
  unfold replace, marital_spec.
  destruct (marital_dict !! s) as [v|] eqn:Hv.
  - apply elem_of_list_to_map_2 in Hv.
    repeat (apply elem_of_cons in Hv as [[= -> ->]|Hv]; [done|]).
    by apply elem_of_nil in Hv.
  - apply not_elem_of_list_to_map in Hv. cbn in Hv.
    rewrite !bool_decide_false; [done|..];
      intros Hs; apply Hv; try rewrite !elem_of_cons in Hs;
      rewrite !elem_of_cons; tauto.
Qed.

Lemma replace_education_dict s : replace education_dict s = education_spec s.
Proof.
  unfold replace, education_spec.
  destruct (education_dict !! s) as [v|] eqn:Hv.
  - apply elem_of_list_to_map_2 in Hv.
    repeat (apply elem_of_cons in Hv as [[= -> ->]|Hv]; [done|]).
    by apply elem_of_nil in Hv.
  - apply not_elem_of_list_to_map in Hv. cbn in Hv.
    rewrite !bool_decide_false; [done|..];
      intros Hs; apply Hv; try rewrite !elem_of_cons in Hs;
      rewrite !elem_of_cons; tauto.
Qed.

(** C5.  The output rows are the surviving input rows in their order, with
    [Marital_Status] and [Education] mapped as the specification says (a
    value outside the mapping stays as it is); and each value of the tables
    is mapped as listed. *)
Theorem clean_normalizes_categories strptime parse_dayfirst df :
  (λ r, (untouched r, Marital_Status r, Education r))
    <$> rows (clean strptime parse_dayfirst df)
  = (λ r, (untouched r, marital_spec (Marital_Status r),
           education_spec (Education r)))
      <$> List.filter survives (rows df)
  ∧ replace marital_dict <$>
      ["Married"; "Together"; "Single"; "Divorced"; "Widow"; "Alone";
       "Absurd"; "YOLO"]
    = ["Partner"; "Partner"; "Single"; "Single"; "Single"; "Single";
       "Other"; "Other"]
  ∧ replace education_dict <$>
      ["Basic"; "2n Cycle"; "Graduation"; "Master"; "PhD"]
    = ["Undergraduate"; "Master"; "Graduate"; "Master"; "PhD"]
  ∧ (∀ s, marital_dict !! s = None → replace marital_dict s = s)
  ∧ (∀ s, education_dict !! s = None → replace education_dict s = s).
Proof.
  split; [|split; [|split; [|split]]].
  - rewrite clean_rows, <- list_fmap_compose.
    apply list_fmap_ext. intros _ r _. unfold compose.
    rewrite untouched_derive_row, Marital_Status_derive_row,
      Education_derive_row.
    by rewrite replace_marital_dict, replace_education_dict.
  - vm_compute. done.
  - vm_compute. done.
  - intros s Hs. unfold replace. by rewrite Hs.
  - intros s Hs. unfold replace. by rewrite Hs.
Qed.

Lemma clean_normalizes_categories_witness :
  marital_dict !! "Cohabiting" = None ∧
  replace marital_dict "Cohabiting" = "Cohabiting" ∧
  education_dict !! "Diploma" = None ∧
  replace education_dict "Diploma" = "Diploma".
Proof.
  destruct (clean_normalizes_categories Calendar.strptime_Ymd
              Calendar.parse_dmy (Sample.table []))
    as (_ & _ & _ & Hm & He).
  split; [reflexivity|]. split; [exact (Hm "Cohabiting" eq_refl)|].
  split; [reflexivity|]. exact (He "Diploma" eq_refl).
Defined.

(** C8.  A row with the values of the worked example (born 1970, income
    50000, enrolled 2013-06-15, married, basic education, 100 spent on
    wines and nothing else, only the last campaign accepted) comes out of
    the pipeline with age 44, total spend 100, one accepted campaign,
    marital status Partner, education Undergraduate and a tenure of 564
    days, whatever the other rows of the table are. *)
Theorem clean_worked_example parse_dayfirst df r :
  r ∈ rows df →
  Year_Birth r = 1970 → Income r = Some 50000 →
  Dt_Customer r = Obj (Some "2013-06-15") →
  Marital_Status r = "Married" → Education r = "Basic" →
  MntWines r = 100 → MntFruits r = 0 → MntMeatProducts r = 0 →
  MntFishProducts r = 0 → MntSweetProducts r = 0 → MntGoldProds r = 0 →
  AcceptedCmp1 r = 0 → AcceptedCmp2 r = 0 → AcceptedCmp3 r = 0 →
  AcceptedCmp4 r = 0 → AcceptedCmp5 r = 0 → Response r = 1 →
  ∃ r', r' ∈ rows (clean Calendar.strptime_Ymd parse_dayfirst df) ∧
        untouched r' = untouched r ∧
        Age r' = Some 44 ∧ Total_Spend r' = Some 100 ∧
        Total_Accepted_Campaigns r' = Some 1 ∧
        Marital_Status r' = "Partner" ∧ Education r' = "Undergraduate" ∧
        Tenure_Days r' = Some 564.
Proof.
  intros Hr. destruct r as [i yb inc dt ms ed w f m fi sw g c1 c2 c3 c4 c5 rs
                                a ts ta td].
  cbn [Year_Birth Income Dt_Customer Marital_Status Education MntWines
       MntFruits MntMeatProducts MntFishProducts MntSweetProducts MntGoldProds
       AcceptedCmp1 AcceptedCmp2 AcceptedCmp3 AcceptedCmp4 AcceptedCmp5
       Response].
  intros -> -> -> -> -> -> -> -> -> -> -> -> -> -> -> -> ->.
  eexists. split.
  - apply elem_of_clean. eexists. split; [reflexivity|]. split; [exact Hr|].
    reflexivity.
  - repeat split; vm_compute; reflexivity.
Qed.

Lemma clean_worked_example_witness :
  let df := Sample.table [Sample.no_income; Sample.married_1970] in
  Sample.married_1970 ∈ rows df ∧
  ∃ r', r' ∈ rows (clean Calendar.strptime_Ymd Calendar.parse_dmy df) ∧
        untouched r' = untouched Sample.married_1970 ∧
        Age r' = Some 44 ∧ Total_Spend r' = Some 100 ∧
        Total_Accepted_Campaigns r' = Some 1 ∧
        Marital_Status r' = "Partner" ∧ Education r' = "Undergraduate" ∧
        Tenure_Days r' = Some 564.
Proof.
  assert (Hin : Sample.married_1970
                ∈ rows (Sample.table
                          [Sample.no_income; Sample.married_1970])).
  { cbn. constructor. constructor. }
  split; [exact Hin|].
  exact (clean_worked_example Calendar.parse_dmy _ _ Hin
           eq_refl eq_refl eq_refl eq_refl eq_refl eq_refl eq_refl eq_refl
           eq_refl eq_refl eq_refl eq_refl eq_refl eq_refl eq_refl eq_refl
           eq_refl).
Defined.

(** C10.  Line 73 parses the column that line 70 has already overwritten,
    so it changes nothing.  If no enrollment date of the input parses under
    the strict format, every row of the output has a null date and a null
    [Tenure_Days], whatever the day-first parser would make of the text. *)
Theorem clean_fallback_recovers_nothing strptime parse_dayfirst df :
  parse_dates_fallback parse_dayfirst (parse_dates_strict strptime df)
  = parse_dates_strict strptime df ∧
  ((∀ r, r ∈ rows df →
         to_datetime_format strptime (Dt_Customer r) = None) →
   ∀ r', r' ∈ rows (clean strptime parse_dayfirst df) →
         Dt_Customer r' = Dt64 None ∧ Tenure_Days r' = None).
Proof.
  split; [apply parse_dates_fallback_strict|].
  intros Hnone r' (r & -> & Hr & _)%elem_of_clean.
  specialize (Hnone r Hr).
  rewrite Tenure_Days_derive_row, Dt_Customer_derive_row, Hnone.
  split; reflexivity.
Qed.

Lemma clean_fallback_recovers_nothing_witness :
  let df := Sample.table [Sample.day_first] in
  (∀ r, r ∈ rows df →
        to_datetime_format Calendar.strptime_Ymd (Dt_Customer r) = None) ∧
  Calendar.parse_dmy [Some "15-06-2013"] "15-06-2013"
  = Some (15871 * Calendar.ns_per_day) ∧
  ∀ r', r' ∈ rows (clean Calendar.strptime_Ymd Calendar.parse_dmy df) →
        Dt_Customer r' = Dt64 None ∧ Tenure_Days r' = None.
Proof.
  assert (Hnone : ∀ r, r ∈ rows (Sample.table [Sample.day_first]) →
            to_datetime_format Calendar.strptime_Ymd (Dt_Customer r) = None).
  { intros r Hr. cbn in Hr. apply list_elem_of_singleton in Hr as ->.
    reflexivity. }
  split; [exact Hnone|]. split; [reflexivity|].
  exact (proj2 (clean_fallback_recovers_nothing Calendar.strptime_Ymd
                  Calendar.parse_dmy (Sample.table [Sample.day_first]))
           Hnone).
Defined.

(** C2 fails on the code.  On a table whose only enrollment date is written
    day first, step 5 as the specification words it parses the date, and
    the pipeline returns a null date and a null [Tenure_Days]: line 73 reads
    the column that line 70 overwrote, not the text of the file. *)
Theorem clean_loses_day_first_dates :
  let df := Sample.table [Sample.day_first] in
  parse_dates_as_specified Calendar.strptime_Ymd Calendar.parse_dmy
    (Dt_Customer <$> rows df)
  = [Some (Calendar.days_from_civil 2013 6 15 * Calendar.ns_per_day)] ∧
  (λ r, (Dt_Customer r, Tenure_Days r))
    <$> rows (clean Calendar.strptime_Ymd Calendar.parse_dmy df)
  = [(Dt64 None, None)].
Proof. split; vm_compute; reflexivity. Qed.

(** An assignment that leaves the untouched columns alone keeps them, row
    by row. *)
Lemma untouched_assign {V : Type} c (set : V → row → row) (g : row → V) df :
  (∀ v r, untouched (set v r) = untouched r) →
  untouched <$> rows (assign c set (g <$> rows df) df)
  = untouched <$> rows df.
Proof.
  intros Hset. rewrite rows_assign_fmap, <- list_fmap_compose.
  apply list_fmap_ext. intros _ r _. apply Hset.
Qed.

Lemma untouched_getitem_mask (f : row → bool) df :
  untouched <$> rows (getitem_mask (f <$> rows df) df)
  `sublist_of` untouched <$> rows df.
Proof. rewrite rows_getitem_mask. apply fmap_filter_sublist. Qed.

Lemma untouched_parse_dates_fallback parse_dayfirst df :
  untouched <$> rows (parse_dates_fallback parse_dayfirst df)
  = untouched <$> rows df.
Proof.
  unfold parse_dates_fallback. destruct (forallb _ _); [|done].
  unfold to_datetime_dayfirst.
  rewrite <- !list_fmap_compose.
  by apply untouched_assign.
Qed.

Lemma step_keeps_rows_in_order strptime parse_dayfirst step df :
  step ∈ steps strptime parse_dayfirst →
  untouched <$> rows (step df) `sublist_of` untouched <$> rows df.
Proof.
  unfold steps. intros Hstep.
  repeat (apply elem_of_cons in Hstep as [->|Hstep];
          [first [ apply untouched_getitem_mask
                 | rewrite untouched_parse_dates_fallback; reflexivity
                 | unfold derive_age, derive_total_spend,
                     derive_total_accepted, parse_dates_strict,
                     derive_tenure, normalize_marital, normalize_education;
                   rewrite untouched_assign; [reflexivity|done] ]|]).
  by apply elem_of_nil in Hstep.
Qed.

Lemma clean_columns strptime parse_dayfirst df :
  columns (clean strptime parse_dayfirst df)
  = add_column "Education" (add_column "Marital_Status"
      (add_column "Tenure_Days" (add_column "Dt_Customer"
        (add_column "Total_Accepted_Campaigns" (add_column "Total_Spend"
          (add_column "Age" (columns df))))))).
Proof. rewrite clean_unfold. reflexivity. Qed.

(** C9.  The pipeline is its eleven statements in order.  Each statement
    returns the rows of its argument, or a subsequence of them, with the
    columns it does not assign unchanged, so no statement adds a row; the
    rows of the output are a subsequence of the rows of the input, in the
    order of the input; and on a file that has the columns the pipeline
    reads, the columns of the output are those of the file and the four
    derived ones. *)
Theorem clean_keeps_rows_in_order strptime parse_dayfirst :
  (∀ df, clean strptime parse_dayfirst df
         = foldl (λ d step, step d) df (steps strptime parse_dayfirst)) ∧
  (∀ step df, step ∈ steps strptime parse_dayfirst →
     untouched <$> rows (step df) `sublist_of` untouched <$> rows df ∧
     (length (rows (step df)) ≤ length (rows df))%nat) ∧
  (∀ df, untouched <$> rows (clean strptime parse_dayfirst df)
         `sublist_of` untouched <$> rows df) ∧
  (∀ df, raw_columns ⊆ columns df →
     ∀ c, c ∈ columns (clean strptime parse_dayfirst df) ↔
          c ∈ columns df ∨ c ∈ derived_columns).
Proof.
  split; [reflexivity|]. split; [|split].
  - intros step df Hstep.
    pose proof (step_keeps_rows_in_order _ _ _ df Hstep) as Hsub.
    split; [done|].
    apply sublist_length in Hsub. by rewrite !length_fmap in Hsub.
  - intros df. rewrite clean_rows, <- list_fmap_compose.
    change (untouched ∘ derive_row strptime) with untouched.
    apply fmap_filter_sublist.
  - intros df Hraw c. rewrite clean_columns, !add_column_elem.
    unfold derived_columns. rewrite !elem_of_cons, elem_of_nil.
    assert (∀ k, k ∈ raw_columns → c = k → c ∈ columns df) as Hk.
    { intros k Hin ->. by apply Hraw. }
    pose proof (Hk "Dt_Customer") as Hdt.
    pose proof (Hk "Marital_Status") as Hms.
    pose proof (Hk "Education") as Hed.
    unfold raw_columns in Hdt, Hms, Hed.
    rewrite !elem_of_cons in Hdt, Hms, Hed.
    tauto.
Qed.

Lemma clean_keeps_rows_in_order_witness :
  let df := Sample.table
              [Sample.married_1970; Sample.born_2020; Sample.no_income] in
  let out := clean Calendar.strptime_Ymd Calendar.parse_dmy df in
  (drop_null_income ∈ steps Calendar.strptime_Ymd Calendar.parse_dmy ∧
   untouched <$> rows (drop_null_income df)
     `sublist_of` untouched <$> rows df ∧
   (length (rows (drop_null_income df)) ≤ length (rows df))%nat) ∧
  idx <$> rows out = [0%nat; 1%nat] ∧
  raw_columns ⊆ columns df ∧
  ∀ c, c ∈ columns out ↔ c ∈ columns df ∨ c ∈ derived_columns.
Proof.
  cbv zeta.
  destruct (clean_keeps_rows_in_order Calendar.strptime_Ymd
              Calendar.parse_dmy) as (_ & Hstep & _ & Hcols).
  assert (Hin : drop_null_income
                ∈ steps Calendar.strptime_Ymd Calendar.parse_dmy).
  { unfold steps. constructor. }
  assert (Hraw : raw_columns
                 ⊆ columns (Sample.table
                     [Sample.married_1970; Sample.born_2020;
                      Sample.no_income])).
  { intros c Hc. cbn. unfold Sample.header.
    apply elem_of_cons. right. apply elem_of_app. by left. }
  split; [split; [exact Hin|exact (Hstep _ _ Hin)]|].
  split; [reflexivity|]. split; [exact Hraw|].
  exact (Hcols _ Hraw).
Defined.

(** ** Properties of the script *)

(** The function under the decorator, by the state of the file. *)
Lemma load_and_clean_data_body_eq strptime parse_dayfirst file_path w :
  load_and_clean_data_body strptime parse_dayfirst file_path w
  = match files w !! file_path with
    | Some (Csv df) => (Return (Some (clean strptime parse_dayfirst df)), w)
    | Some Malformed => (Raise ParserError, w)
    | None =>
        (Return None,
         mkWorld (files w) (cache w)
           (page w ++ [st_error (not_found_message file_path)]))
    end.
Proof.
  unfold load_and_clean_data_body, bind, try_except, read_csv.
  destruct (files w !! file_path) as [[df|]|]; reflexivity.
Qed.




(** With the file in place the script does display KPIs and charts. *)
Lemma app_with_file_shows_data :
  let w' := snd (app Calendar.strptime_Ymd Calendar.parse_dmy
                   (Sample.with_file [Sample.married_1970])) in
  length (List.filter shows_data (page w')) = 13%nat.
Proof. vm_compute. reflexivity. Qed.

(** C7, as amended.  A call of [load_and_clean_data] leaves the files as
    they are, and a second call with the same argument returns what the
    first returned.  Two calls in states that agree on the file at the path
    and on the cache entry for the path return the same: the result is
    determined by the file and the cache entry together, not by the file
    alone. *)
Theorem load_and_clean_data_same_file_and_cache strptime parse_dayfirst
    file_path :
  (∀ w,
     let r1 := load_and_clean_data strptime parse_dayfirst file_path w in
     let r2 :=
       load_and_clean_data strptime parse_dayfirst file_path (snd r1) in
     files (snd r1) = files w ∧ fst r2 = fst r1) ∧
  (∀ w w', files w !! file_path = files w' !! file_path →
           cache w !! file_path = cache w' !! file_path →
           fst (load_and_clean_data strptime parse_dayfirst file_path w)
           = fst (load_and_clean_data strptime parse_dayfirst file_path w')).
Proof.
  split.
  - intros w. cbv zeta. unfold load_and_clean_data, st_cache_data.
    destruct (cache w !! file_path) as [[v els]|] eqn:Hc.
    + cbn [fst snd files cache]. by rewrite Hc.
    + rewrite load_and_clean_data_body_eq.
      destruct (files w !! file_path) as [[df|]|] eqn:Hf;
        cbn [fst snd files cache page].
      * by rewrite lookup_insert_eq.
      * by rewrite Hc, load_and_clean_data_body_eq, Hf.
      * by rewrite lookup_insert_eq.
  - intros w w' Hfiles Hcache.
    unfold load_and_clean_data, st_cache_data. rewrite Hcache.
    destruct (cache w' !! file_path) as [[v els]|]; [done|].
    rewrite !load_and_clean_data_body_eq, Hfiles.
    by destruct (files w' !! file_path) as [[df|]|].
Qed.

Lemma load_and_clean_data_same_file_and_cache_witness :
  let w := Sample.with_file [Sample.married_1970; Sample.no_income] in
  let w' := mkWorld (files w) ∅ [st_info "second session"] in
  let load :=
    load_and_clean_data Calendar.strptime_Ymd Calendar.parse_dmy
      Sample.file_name in
  files w !! Sample.file_name = files w' !! Sample.file_name ∧
  cache w !! Sample.file_name = cache w' !! Sample.file_name ∧
  fst (load w) = fst (load w') ∧
  fst (load (snd (load w))) = fst (load w).
Proof.
  cbv zeta.
  destruct (load_and_clean_data_same_file_and_cache Calendar.strptime_Ymd
              Calendar.parse_dmy Sample.file_name) as [Hagain Hsame].
  split; [reflexivity|]. split; [reflexivity|].
  split.
  - exact (Hsame (Sample.with_file [Sample.married_1970; Sample.no_income])
             (mkWorld
                (files (Sample.with_file
                          [Sample.married_1970; Sample.no_income]))
                ∅ [st_info "second session"])
             eq_refl eq_refl).
  - exact (proj2 (Hagain (Sample.with_file
                            [Sample.married_1970; Sample.no_income]))).
Defined.

(** C7 as the specification states it fails: two calls on the same,
    unmodified file return different tables when one of the two states holds
    a cache entry left by an earlier content of the file (here an empty
    table). *)
Lemma load_and_clean_data_stale_cache_differs :
  let w := Sample.with_file [Sample.married_1970] in
  let stale :=
    clean Calendar.strptime_Ymd Calendar.parse_dmy (Sample.table []) in
  let w' :=
    mkWorld (files w) {[ Sample.file_name := (Some stale, []) ]} [] in
  let load :=
    load_and_clean_data Calendar.strptime_Ymd Calendar.parse_dmy
      Sample.file_name in
  files w = files w' ∧
  fst (load w') = Return (Some stale) ∧
  fst (load w) ≠ fst (load w').
Proof.
  cbv zeta. split; [reflexivity|]. split; [vm_compute; reflexivity|].
  vm_compute. intros H. discriminate H.
Qed.

(** ** Further properties of the pipeline *)

Lemma DataFrame_eq (a b : DataFrame) :
  columns a = columns b → rows a = rows b → a = b.
Proof. destruct a, b. cbn. by intros -> ->. Qed.

Lemma add_column_present c cols : c ∈ cols → add_column c cols = cols.
Proof. intros Hc. unfold add_column. by rewrite bool_decide_true. Qed.

Lemma replace_marital_idem s :
  replace marital_dict (replace marital_dict s) = replace marital_dict s.
Proof.
  rewrite !replace_marital_dict. unfold marital_spec at 2 3.
  repeat case_bool_decide; try reflexivity.
  unfold marital_spec. by rewrite !bool_decide_false by assumption.
Qed.

Lemma replace_education_idem s :
  replace education_dict (replace education_dict s)
  = replace education_dict s.
Proof.
  rewrite !replace_education_dict. unfold education_spec at 2 3.
  repeat case_bool_decide; try reflexivity.
  unfold education_spec. by rewrite !bool_decide_false by assumption.
Qed.

Lemma survives_derive_row strptime r :
  survives (derive_row strptime r) = survives r.
Proof. reflexivity. Qed.

Lemma derive_row_eq strptime r :
  derive_row strptime r
  = mkRow (idx r) (Year_Birth r) (Income r)
      (Dt64 (to_datetime_format strptime (Dt_Customer r)))
      (replace marital_dict (Marital_Status r))
      (replace education_dict (Education r))
      (MntWines r) (MntFruits r) (MntMeatProducts r) (MntFishProducts r)
      (MntSweetProducts r) (MntGoldProds r)
      (AcceptedCmp1 r) (AcceptedCmp2 r) (AcceptedCmp3 r) (AcceptedCmp4 r)
      (AcceptedCmp5 r) (Response r)
      (Some (current_year - Year_Birth r))
      (Some (sum_axis1 products r)) (Some (sum_axis1 campaigns r))
      (days_until_reference
         (Dt64 (to_datetime_format strptime (Dt_Customer r)))).
Proof. reflexivity. Qed.

Lemma derive_row_idem strptime r :
  derive_row strptime (derive_row strptime r) = derive_row strptime r.
Proof.
  rewrite (derive_row_eq strptime (derive_row strptime r)).
  rewrite (derive_row_eq strptime r).
  cbn [idx Year_Birth Income Dt_Customer Marital_Status Education MntWines
       MntFruits MntMeatProducts MntFishProducts MntSweetProducts MntGoldProds
       AcceptedCmp1 AcceptedCmp2 AcceptedCmp3 AcceptedCmp4 AcceptedCmp5
       Response to_datetime_format].
  by rewrite replace_marital_idem, replace_education_idem.
Qed.

Lemma filter_all {A : Type} (f : A → bool) (l : list A) :
  (∀ x, x ∈ l → f x = true) → List.filter f l = l.
Proof.
  induction l as [|x l IH]; [done|]. intros Hall. cbn.
  rewrite (Hall x) by constructor. f_equal. apply IH.
  intros y Hy. apply Hall. by constructor.
Qed.

(** X1.  Cleaning a cleaned table changes nothing: the pipeline is
    idempotent, in its rows and in its columns. *)
Theorem clean_idempotent strptime parse_dayfirst df :
  clean strptime parse_dayfirst (clean strptime parse_dayfirst df)
  = clean strptime parse_dayfirst df.
Proof.
  apply DataFrame_eq.
  - rewrite (clean_columns _ _ (clean _ _ df)).
    set (cols := columns (clean strptime parse_dayfirst df)).
    assert (∀ c, c ∈ ["Age"; "Total_Spend"; "Total_Accepted_Campaigns";
                      "Dt_Customer"; "Tenure_Days"; "Marital_Status";
                      "Education"] → c ∈ cols) as Hin.
    { intros c Hc. unfold cols. rewrite clean_columns, !add_column_elem.
      rewrite !elem_of_cons, elem_of_nil in Hc. tauto. }
    rewrite (add_column_present "Age" cols),
      (add_column_present "Total_Spend" cols),
      (add_column_present "Total_Accepted_Campaigns" cols),
      (add_column_present "Dt_Customer" cols),
      (add_column_present "Tenure_Days" cols),
      (add_column_present "Marital_Status" cols),
      (add_column_present "Education" cols); [done|apply Hin..];
      rewrite !elem_of_cons; tauto.
  - rewrite (clean_rows _ _ (clean _ _ df)), clean_rows.
    rewrite filter_all.
    + rewrite <- list_fmap_compose. apply list_fmap_ext.
      intros _ r _. apply derive_row_idem.
    + intros r' (r & -> & Hr)%list_elem_of_fmap.
      rewrite survives_derive_row. by apply elem_of_filter in Hr as [_ ?].
Qed.

(** X2.  The two outlier filters of lines 92 and 93 commute: in either order
    they keep the rows that pass both tests. *)
Theorem outlier_filters_commute df :
  drop_income_outliers (drop_age_outliers df)
  = drop_age_outliers (drop_income_outliers df) ∧
  rows (drop_income_outliers (drop_age_outliers df))
  = List.filter (λ r, lt 100 (Age r) && lt 600000 (Income r)) (rows df).
Proof.
  assert (rows (drop_income_outliers (drop_age_outliers df))
          = List.filter (λ r, lt 100 (Age r) && lt 600000 (Income r))
              (rows df)) as Hrows.
  { unfold drop_income_outliers, drop_age_outliers.
    by rewrite !rows_getitem_mask, filter_filter. }
  split; [|done]. apply DataFrame_eq; [done|].
  rewrite Hrows. unfold drop_income_outliers, drop_age_outliers.
  rewrite !rows_getitem_mask, filter_filter.
  apply filter_ext. intros r. apply andb_comm.
Qed.

Lemma fmap_inj_on_NoDup {A B : Type} (f : A → B) (l : list A) (x y : A) :
  NoDup (f <$> l) → x ∈ l → y ∈ l → f x = f y → x = y.
Proof.
  induction l as [|z l IH]; [by intros _ ?%elem_of_nil|].
  rewrite fmap_cons, NoDup_cons.
  intros [Hz Hl] [->|Hx]%elem_of_cons [->|Hy]%elem_of_cons Hxy; [done|..].
  - destruct Hz. rewrite Hxy. apply list_elem_of_fmap. eauto.
  - destruct Hz. rewrite <- Hxy. apply list_elem_of_fmap. eauto.
  - by apply IH.
Qed.

(** X3.  The output holds exactly the surviving rows of the input: every
    input row with an income below 600000 and an age below 100 is in the
    output with its derived columns, the output has as many rows as the
    input has survivors, and when the index labels of the input are
    distinct, the label of a row that does not survive (null income, age 100
    or more, income 600000 or more) is not in the output. *)
Theorem clean_rows_are_the_survivors strptime parse_dayfirst df :
  (∀ r, r ∈ rows df → survives r = true →
        derive_row strptime r ∈ rows (clean strptime parse_dayfirst df)) ∧
  length (rows (clean strptime parse_dayfirst df))
  = length (List.filter survives (rows df)) ∧
  (NoDup (idx <$> rows df) →
   ∀ r, r ∈ rows df → survives r = false →
        idx r ∉ idx <$> rows (clean strptime parse_dayfirst df)).
Proof.
  split; [|split].
  - intros r Hr Hs. apply elem_of_clean. eauto.
  - by rewrite clean_rows, length_fmap.
  - intros Hnodup r Hr Hdead (r' & Hidx & Hr')%list_elem_of_fmap.
    apply elem_of_clean in Hr' as (r0 & -> & Hr0 & Hs).
    assert (r = r0) as ->; [|congruence].
    by apply (fmap_inj_on_NoDup idx (rows df)).
Qed.

Lemma clean_rows_are_the_survivors_witness :
  let df := Sample.table
              [Sample.married_1970; Sample.born_2020; Sample.no_income] in
  let out := rows (clean Calendar.strptime_Ymd Calendar.parse_dmy df) in
  (Sample.married_1970 ∈ rows df ∧ survives Sample.married_1970 = true ∧
   derive_row Calendar.strptime_Ymd Sample.married_1970 ∈ out) ∧
  (NoDup (idx <$> rows df) ∧ Sample.no_income ∈ rows df ∧
   survives Sample.no_income = false ∧
   idx Sample.no_income ∉ idx <$> out).
Proof.
  cbv zeta.
  destruct (clean_rows_are_the_survivors Calendar.strptime_Ymd
              Calendar.parse_dmy
              (Sample.table
                 [Sample.married_1970; Sample.born_2020; Sample.no_income]))
    as (Hin & _ & Hout).
  assert (H1 : Sample.married_1970
               ∈ rows (Sample.table
                   [Sample.married_1970; Sample.born_2020;
                    Sample.no_income])).
  { cbn. constructor. }
  assert (H3 : Sample.no_income
               ∈ rows (Sample.table
                   [Sample.married_1970; Sample.born_2020;
                    Sample.no_income])).
  { cbn. do 2 constructor. constructor. }
  assert (Hnd : NoDup (idx <$> rows (Sample.table
                   [Sample.married_1970; Sample.born_2020;
                    Sample.no_income]))).
  { cbn. repeat (constructor; [rewrite ?elem_of_cons, ?elem_of_nil;
                               intros ?; intuition discriminate|]).
    constructor. }
  split.
  - split; [exact H1|]. split; [reflexivity|]. exact (Hin _ H1 eq_refl).
  - split; [exact Hnd|]. split; [exact H3|]. split; [reflexivity|].
    exact (Hout Hnd _ H3 eq_refl).
Defined.

Lemma marital_spec_range s :
  marital_spec s ∈ ["Partner"; "Single"; "Other"] ∨
  (marital_spec s = s ∧ marital_dict !! s = None).
Proof.
  destruct (marital_dict !! s) as [v|] eqn:Hv.
  - left. rewrite <- replace_marital_dict. unfold replace. rewrite Hv. cbn.
    apply elem_of_list_to_map_2 in Hv.
    repeat (apply elem_of_cons in Hv as [[= _ <-]|Hv];
            [rewrite !elem_of_cons; tauto|]).
    by apply elem_of_nil in Hv.
  - right. split; [|done]. rewrite <- replace_marital_dict.
    unfold replace. by rewrite Hv.
Qed.

Lemma education_spec_range s :
  education_spec s ∈ ["Undergraduate"; "Master"; "Graduate"; "PhD"] ∨
  (education_spec s = s ∧ education_dict !! s = None).
Proof.
  destruct (education_dict !! s) as [v|] eqn:Hv.
  - left. rewrite <- replace_education_dict. unfold replace. rewrite Hv. cbn.
    apply elem_of_list_to_map_2 in Hv.
    repeat (apply elem_of_cons in Hv as [[= _ <-]|Hv];
            [rewrite !elem_of_cons; tauto|]).
    by apply elem_of_nil in Hv.
  - right. split; [|done]. rewrite <- replace_education_dict.
    unfold replace. by rewrite Hv.
Qed.

(** X4.  In every row of the cleaned table, [Marital_Status] is Partner,
    Single or Other, or else a value of the input that the dictionary does
    not list, kept as it is; likewise [Education] is Undergraduate, Master,
    Graduate or PhD or an unlisted value of the input.  So a raw category
    that the dictionaries rename (Married, Together, Divorced, Widow, Alone,
    Absurd, YOLO; Basic, 2n Cycle, Graduation) never appears in the
    output. *)
Theorem clean_categories_range strptime parse_dayfirst df r' :
  r' ∈ rows (clean strptime parse_dayfirst df) →
  (Marital_Status r' ∈ ["Partner"; "Single"; "Other"] ∨
   ∃ r, r ∈ rows df ∧ Marital_Status r = Marital_Status r' ∧
        marital_dict !! Marital_Status r = None) ∧
  (Education r' ∈ ["Undergraduate"; "Master"; "Graduate"; "PhD"] ∨
   ∃ r, r ∈ rows df ∧ Education r = Education r' ∧
        education_dict !! Education r = None) ∧
  (Marital_Status r' ∉ ["Married"; "Together"; "Divorced"; "Widow"; "Alone";
                        "Absurd"; "YOLO"]) ∧
  (Education r' ∉ ["Basic"; "2n Cycle"; "Graduation"]).
Proof.
  intros (r & -> & Hr & _)%elem_of_clean.
  rewrite Marital_Status_derive_row, Education_derive_row,
    replace_marital_dict, replace_education_dict.
  pose proof (marital_spec_range (Marital_Status r)) as Hm.
  pose proof (education_spec_range (Education r)) as He.
  split; [|split; [|split]].
  - destruct Hm as [?|[Heq ?]]; [by left|]. right. exists r. by rewrite Heq.
  - destruct He as [?|[Heq ?]]; [by left|]. right. exists r. by rewrite Heq.
  - destruct Hm as [Hm|[Heq Hnone]].
    + intros Hbad. rewrite !elem_of_cons, elem_of_nil in Hm.
      rewrite !elem_of_cons, elem_of_nil in Hbad.
      destruct Hm as [Hm|[Hm|[Hm|[]]]]; rewrite Hm in Hbad;
        intuition discriminate.
    + rewrite Heq. intros Hbad.
      apply not_elem_of_list_to_map in Hnone. apply Hnone. cbn.
      rewrite !elem_of_cons, elem_of_nil in Hbad.
      rewrite !elem_of_cons, elem_of_nil. tauto.
  - destruct He as [He|[Heq Hnone]].
    + intros Hbad. rewrite !elem_of_cons, elem_of_nil in He.
      rewrite !elem_of_cons, elem_of_nil in Hbad.
      destruct He as [He|[He|[He|[He|[]]]]]; rewrite He in Hbad;
        intuition discriminate.
    + rewrite Heq. intros Hbad.
      apply not_elem_of_list_to_map in Hnone. apply Hnone. cbn.
      rewrite !elem_of_cons, elem_of_nil in Hbad.
      rewrite !elem_of_cons, elem_of_nil. tauto.
Qed.

Lemma clean_categories_range_witness :
  let odd :=
    Sample.csv_row 4 1990 (Some 20000) "2014-01-01" "Cohabiting" "Basic"
      3 0 in
  let df := Sample.table [odd] in
  let r' := derive_row Calendar.strptime_Ymd odd in
  r' ∈ rows (clean Calendar.strptime_Ymd Calendar.parse_dmy df) ∧
  Marital_Status r' = "Cohabiting" ∧ Education r' = "Undergraduate" ∧
  (Marital_Status r' ∉ ["Married"; "Together"; "Divorced"; "Widow"; "Alone";
                        "Absurd"; "YOLO"]) ∧
  (Education r' ∉ ["Basic"; "2n Cycle"; "Graduation"]).
Proof.
  cbv zeta.
  assert (Hin : derive_row Calendar.strptime_Ymd
                  (Sample.csv_row 4 1990 (Some 20000) "2014-01-01"
                     "Cohabiting" "Basic" 3 0)
                ∈ rows (clean Calendar.strptime_Ymd Calendar.parse_dmy
                          (Sample.table
                             [Sample.csv_row 4 1990 (Some 20000) "2014-01-01"
                                "Cohabiting" "Basic" 3 0]))).
  { vm_compute. constructor. }
  destruct (clean_categories_range _ _ _ _ Hin) as (_ & _ & Hm & He).
  split; [exact Hin|]. split; [reflexivity|]. split; [reflexivity|].
  split; [exact Hm|exact He].
Defined.

Lemma sum_axis1_bounds (cols : list (row → Z)) (r : row) (lo hi : Z) :
  Forall (λ c, lo ≤ c r ≤ hi) cols →
  Z.of_nat (length cols) * lo ≤ sum_axis1 cols r
  ≤ Z.of_nat (length cols) * hi.
Proof.
  induction 1 as [|c cols Hc _ IH]; [cbn; lia|].
  cbn [sum_axis1 foldr length]. fold (sum_axis1 cols r). lia.
Qed.

(** X5.  In a row of the cleaned table whose six acceptance flags are 0 or
    1, [Total_Accepted_Campaigns] lies between 0 and 6; and in a row whose
    six spend columns are not negative, [Total_Spend] is not negative and
    not below any of the six. *)
Theorem clean_totals_bounds strptime parse_dayfirst df r :
  r ∈ rows (clean strptime parse_dayfirst df) →
  (Forall (λ c, 0 ≤ c r ≤ 1) campaigns →
   ∃ n, Total_Accepted_Campaigns r = Some n ∧ 0 ≤ n ≤ 6) ∧
  (Forall (λ c, 0 ≤ c r) products →
   ∃ s, Total_Spend r = Some s ∧ 0 ≤ s ∧ Forall (λ c, c r ≤ s) products).
Proof.
  intros (r0 & -> & _ & _)%elem_of_clean. split.
  - intros Hflags. eexists. split; [reflexivity|].
    change (sum_axis1 campaigns (set_Total_Spend _ (set_Age _ r0)))
      with (sum_axis1 campaigns (derive_row strptime r0)).
    apply sum_axis1_bounds in Hflags. cbn [length campaigns] in Hflags. lia.
  - intros Hpos. eexists. split; [reflexivity|].
    change (sum_axis1 products (set_Age _ r0))
      with (sum_axis1 products (derive_row strptime r0)).
    unfold products in *.
    repeat (apply Forall_cons in Hpos as [? Hpos]).
    cbn [sum_axis1 foldr]. split; [lia|].
    repeat (apply Forall_cons; split; [lia|]). constructor.
Qed.

Lemma clean_totals_bounds_witness :
  let df := Sample.table [Sample.married_1970] in
  let r := derive_row Calendar.strptime_Ymd Sample.married_1970 in
  r ∈ rows (clean Calendar.strptime_Ymd Calendar.parse_dmy df) ∧
  Forall (λ c, 0 ≤ c r ≤ 1) campaigns ∧
  Forall (λ c, 0 ≤ c r) products ∧
  (∃ n, Total_Accepted_Campaigns r = Some n ∧ 0 ≤ n ≤ 6) ∧
  (∃ s, Total_Spend r = Some s ∧ 0 ≤ s ∧ Forall (λ c, c r ≤ s) products).
Proof.
  cbv zeta.
  assert (Hin : derive_row Calendar.strptime_Ymd Sample.married_1970
                ∈ rows (clean Calendar.strptime_Ymd Calendar.parse_dmy
                          (Sample.table [Sample.married_1970]))).
  { vm_compute. constructor. }
  assert (Hflags : Forall
            (λ c, 0 ≤ c (derive_row Calendar.strptime_Ymd
                           Sample.married_1970) ≤ 1) campaigns).
  { unfold campaigns. repeat (constructor; [cbn; lia|]). constructor. }
  assert (Hpos : Forall
            (λ c, 0 ≤ c (derive_row Calendar.strptime_Ymd
                           Sample.married_1970)) products).
  { unfold products. repeat (constructor; [cbn; lia|]). constructor. }
  destruct (clean_totals_bounds _ _ _ _ Hin) as [Hc Hs].
  split; [exact Hin|]. split; [exact Hflags|]. split; [exact Hpos|].
  split; [exact (Hc Hflags)|exact (Hs Hpos)].
Defined.

(** X6.  [Tenure_Days] has no lower bound: in a row of the cleaned table
    with a parsed enrollment date, it is zero or more exactly when the date
    is not after the reference date 2014-12-31, and negative for a later
    enrollment. *)
Theorem clean_tenure_sign strptime parse_dayfirst df r t :
  r ∈ rows (clean strptime parse_dayfirst df) →
  Dt_Customer r = Dt64 (Some t) →
  ∃ d, Tenure_Days r = Some d ∧ (0 ≤ d ↔ t ≤ reference_date).
Proof.
  intros (r0 & -> & _ & _)%elem_of_clean Ht.
  rewrite Tenure_Days_derive_row, Ht. cbn [days_until_reference].
  eexists. split; [reflexivity|].
  assert (0 < Calendar.ns_per_day) as Hpos by done.
  split.
  - intros Hd. destruct (Z_le_gt_dec t reference_date) as [|Hgt]; [done|].
    assert ((reference_date - t) / Calendar.ns_per_day < 0); [|lia].
    apply Z.div_lt_upper_bound; lia.
  - intros Hle. apply Z.div_pos; lia.
Qed.

Lemma clean_tenure_sign_witness :
  let late :=
    Sample.csv_row 5 1985 (Some 40000) "2015-01-02" "Single" "PhD" 10 0 in
  let df := Sample.table [late] in
  let r := derive_row Calendar.strptime_Ymd late in
  r ∈ rows (clean Calendar.strptime_Ymd Calendar.parse_dmy df) ∧
  Dt_Customer r = Dt64 (Some (16437 * Calendar.ns_per_day)) ∧
  Tenure_Days r = Some (-2) ∧
  ∃ d, Tenure_Days r = Some d ∧
       (0 ≤ d ↔ 16437 * Calendar.ns_per_day ≤ reference_date).
Proof.
  cbv zeta.
  assert (Hin : derive_row Calendar.strptime_Ymd
                  (Sample.csv_row 5 1985 (Some 40000) "2015-01-02" "Single"
                     "PhD" 10 0)
                ∈ rows (clean Calendar.strptime_Ymd Calendar.parse_dmy
                          (Sample.table
                             [Sample.csv_row 5 1985 (Some 40000) "2015-01-02"
                                "Single" "PhD" 10 0]))).
  { vm_compute. constructor. }
  split; [exact Hin|]. split; [reflexivity|]. split; [reflexivity|].
  exact (clean_tenure_sign _ _ _ _ (16437 * Calendar.ns_per_day) Hin
           eq_refl).
Defined.

(** ** Further properties of the script *)

Lemma appends_ret {A : Type} (a : A) : appends (ret a) a [].
Proof. intros [fs c pg]. unfold ret. cbn. by rewrite app_nil_r. Qed.

Lemma appends_display e : appends (display e) tt [e].
Proof. by intros w. Qed.

Lemma appends_bind {A B : Type} (m : M A) (k : A → M B) a b els1 els2 :
  appends m a els1 → appends (k a) b els2 →
  appends (bind m k) b (els1 ++ els2).
Proof.
  intros Hm Hk w. unfold bind. rewrite Hm, Hk. cbn [files cache page].
  by rewrite app_assoc.
Qed.

Lemma appends_if (b : bool) e :
  appends (if b then display e else ret tt) tt (if b then [e] else []).
Proof. destruct b; [apply appends_display|apply appends_ret]. Qed.

Lemma appends_shown {A : Type} (m : M A) a els :
  appends m a els → els = shown m.
Proof. intros Hm. unfold shown. by rewrite Hm. Qed.

(** The dashboard reads neither the files nor the cache: on any state it
    appends to the page the elements it displays on an empty one. *)
Lemma dashboard_appends df : appends (dashboard df) tt (shown (dashboard df)).
Proof.
  assert (∃ els, appends (dashboard df) tt els) as [els Hels].
  { unfold dashboard. eexists.
    repeat (eapply appends_bind;
            [first [apply appends_display | apply appends_if]|]).
    apply appends_if. }
  by rewrite <- (appends_shown _ _ _ Hels).
Qed.

Lemma dashboard_eq df w :
  dashboard df w
  = (Return tt, mkWorld (files w) (cache w) (page w ++ shown (dashboard df))).
Proof. apply dashboard_appends. Qed.


(** X7.  Content that [read_csv] cannot parse is not handled: with no cache
    entry for the path, the exception leaves [load_and_clean_data] and the
    script, and the state is as before: nothing is displayed and nothing is
    cached. *)
Theorem malformed_file_is_not_handled strptime parse_dayfirst :
  (∀ file_path w,
     files w !! file_path = Some Malformed → cache w !! file_path = None →
     load_and_clean_data strptime parse_dayfirst file_path w
     = (Raise ParserError, w)) ∧
  (∀ w, files w !! "marketing_campaign_data.csv" = Some Malformed →
        cache w !! "marketing_campaign_data.csv" = None →
        app strptime parse_dayfirst w = (Raise ParserError, w)).
Proof.
  assert (∀ file_path w,
     files w !! file_path = Some Malformed → cache w !! file_path = None →
     load_and_clean_data strptime parse_dayfirst file_path w
     = (Raise ParserError, w)) as Hload.
  { intros file_path w Hfile Hcache.
    unfold load_and_clean_data, st_cache_data.
    by rewrite Hcache, load_and_clean_data_body_eq, Hfile. }
  split; [exact Hload|].
  intros w Hfile Hcache. unfold app, bind. by rewrite Hload.
Qed.

Lemma malformed_file_is_not_handled_witness :
  let w := mkWorld {[ Sample.file_name := Malformed ]} ∅ [] in
  files w !! "marketing_campaign_data.csv" = Some Malformed ∧
  cache w !! "marketing_campaign_data.csv" = None ∧
  app Calendar.strptime_Ymd Calendar.parse_dmy w = (Raise ParserError, w).
Proof.
  split; [reflexivity|]. split; [reflexivity|].
  exact (proj2 (malformed_file_is_not_handled Calendar.strptime_Ymd
                  Calendar.parse_dmy)
           (mkWorld {[ Sample.file_name := Malformed ]} ∅ [])
           eq_refl eq_refl).
Defined.

(** X8.  Once a call has loaded the table, the cache answers: a later call
    with the same path returns the same table and displays nothing, whatever
    the files have become in between (the file removed, replaced or made
    unreadable). *)
Theorem cached_table_outlives_the_file strptime parse_dayfirst file_path w df :
  files w !! file_path = Some (Csv df) → cache w !! file_path = None →
  let w1 :=
    snd (load_and_clean_data strptime parse_dayfirst file_path w) in
  page w1 = page w ∧
  ∀ files' page',
    load_and_clean_data strptime parse_dayfirst file_path
      (mkWorld files' (cache w1) page')
    = (Return (Some (clean strptime parse_dayfirst df)),
       mkWorld files' (cache w1) page').
Proof.
  intros Hfile Hcache. cbv zeta.
  unfold load_and_clean_data, st_cache_data.
  rewrite Hcache, load_and_clean_data_body_eq, Hfile.
  cbn [fst snd files cache page]. split; [done|].
  intros files' page'. rewrite lookup_insert_eq, drop_all.
  by rewrite app_nil_r.
Qed.

Lemma cached_table_outlives_the_file_witness :
  let w := Sample.with_file [Sample.married_1970] in
  let load :=
    load_and_clean_data Calendar.strptime_Ymd Calendar.parse_dmy
      Sample.file_name in
  files w !! Sample.file_name
  = Some (Csv (Sample.table [Sample.married_1970])) ∧
  cache w !! Sample.file_name = None ∧
  fst (load (mkWorld ∅ (cache (snd (load w))) []))
  = Return (Some (clean Calendar.strptime_Ymd Calendar.parse_dmy
                    (Sample.table [Sample.married_1970]))).
Proof.
  cbv zeta. split; [reflexivity|]. split; [reflexivity|].
  exact (f_equal fst
    (proj2 (cached_table_outlives_the_file Calendar.strptime_Ymd
              Calendar.parse_dmy Sample.file_name
              (Sample.with_file [Sample.married_1970])
              (Sample.table [Sample.married_1970]) eq_refl eq_refl)
       ∅ [])).
Defined.

(** X9.  The result for a missing file is cached as well: after a call that
    found no file, a later call with the same path returns [None] and
    displays the file-not-found error again, even when the file is there by
    then. *)
Theorem cached_failure_outlives_the_fix strptime parse_dayfirst file_path w :
  files w !! file_path = None → cache w !! file_path = None →
  let w1 :=
    snd (load_and_clean_data strptime parse_dayfirst file_path w) in
  ∀ files' page',
    load_and_clean_data strptime parse_dayfirst file_path
      (mkWorld files' (cache w1) page')
    = (Return None,
       mkWorld files' (cache w1)
         (page' ++ [st_error (not_found_message file_path)])).
Proof.
  intros Hfile Hcache. cbv zeta.
  unfold load_and_clean_data, st_cache_data.
  rewrite Hcache, load_and_clean_data_body_eq, Hfile.
  cbn [fst snd files cache page].
  intros files' page'. by rewrite lookup_insert_eq, drop_app_length.
Qed.

Lemma cached_failure_outlives_the_fix_witness :
  let load :=
    load_and_clean_data Calendar.strptime_Ymd Calendar.parse_dmy
      Sample.file_name in
  let later :=
    mkWorld (files (Sample.with_file [Sample.married_1970]))
      (cache (snd (load Sample.without_file))) [] in
  files Sample.without_file !! Sample.file_name = None ∧
  cache Sample.without_file !! Sample.file_name = None ∧
  files later !! Sample.file_name
  = Some (Csv (Sample.table [Sample.married_1970])) ∧
  fst (load later) = Return None ∧
  page (snd (load later)) = [st_error (not_found_message Sample.file_name)].
Proof.
  cbv zeta. split; [reflexivity|]. split; [reflexivity|].
  split; [reflexivity|].
  pose proof (cached_failure_outlives_the_fix Calendar.strptime_Ymd
                Calendar.parse_dmy Sample.file_name Sample.without_file
                eq_refl eq_refl
                (files (Sample.with_file [Sample.married_1970])) []) as H.
  split; [exact (f_equal fst H)|exact (f_equal (λ x, page (snd x)) H)].
Defined.



(** X11.  Whatever the files and the cache hold, the script leaves the files
    as they are, keeps what the page holds and only adds after it, and
    keeps every cache entry. *)
Theorem app_only_appends strptime parse_dayfirst w :
  let w' := snd (app strptime parse_dayfirst w) in
  files w' = files w ∧ page w `prefix_of` page w' ∧ cache w ⊆ cache w'.
Proof.
  cbv zeta. unfold app, load_and_clean_data, st_cache_data, bind.
  destruct (cache w !! "marketing_campaign_data.csv") as [[v els]|] eqn:Hc.
  - destruct v as [df|].
    + rewrite dashboard_eq. cbn [snd files cache page].
      split; [done|]. split; [|done].
      rewrite <- app_assoc. by apply prefix_app_r.
    + cbn [snd files cache page display].
      split; [done|]. split; [|done].
      rewrite <- app_assoc. by apply prefix_app_r.
  - rewrite load_and_clean_data_body_eq.
    destruct (files w !! "marketing_campaign_data.csv") as [[df|]|].
    + rewrite dashboard_eq. cbn [snd files cache page].
      split; [done|]. split; [by apply prefix_app_r|].
      by apply insert_subseteq.
    + done.
    + cbn [snd files cache page display].
      split; [done|]. split; [|by apply insert_subseteq].
      rewrite <- app_assoc. by apply prefix_app_r.
Qed.

(** ** Properties of the views *)

Lemma elem_of_unique_from seen l x :
  x ∈ View.unique_from seen l ↔ x ∈ l ∧ x ∉ seen.
Proof.
  revert seen. induction l as [|y l IH]; intros seen; cbn.
  - rewrite elem_of_nil. tauto.
  - case_bool_decide as Hy.
    + rewrite IH, elem_of_cons. split; [tauto|].
      intros [[->|?] ?]; tauto.
    + rewrite !elem_of_cons, IH, elem_of_cons.
      destruct (decide (x = y)) as [->|]; tauto.
Qed.

Lemma NoDup_unique_from seen l : NoDup (View.unique_from seen l).
Proof.
  revert seen. induction l as [|y l IH]; intros seen; cbn; [constructor|].
  case_bool_decide; [apply IH|].
  constructor; [|apply IH].
  rewrite elem_of_unique_from, elem_of_cons. tauto.
Qed.

Lemma unique_from_sublist seen l : View.unique_from seen l `sublist_of` l.
Proof.
  revert seen. induction l as [|y l IH]; intros seen; cbn; [constructor|].
  case_bool_decide; [apply sublist_cons|apply sublist_skip]; apply IH.
Qed.

Lemma elem_of_education_options df v :
  v ∈ View.education_options df ↔ ∃ r, r ∈ rows df ∧ Education r = v.
Proof.
  unfold View.education_options, View.unique.
  rewrite elem_of_unique_from, list_elem_of_fmap, elem_of_nil. split.
  - intros [(r & -> & Hr) _]. eauto.
  - intros (r & Hr & <-). split; [eauto|tauto].
Qed.

Lemma elem_of_marital_options df v :
  v ∈ View.marital_options df ↔ ∃ r, r ∈ rows df ∧ Marital_Status r = v.
Proof.
  unfold View.marital_options, View.unique.
  rewrite elem_of_unique_from, list_elem_of_fmap, elem_of_nil. split.
  - intros [(r & -> & Hr) _]. eauto.
  - intros (r & Hr & <-). split; [eauto|tauto].
Qed.

Lemma unique_from_snoc seen l x :
  View.unique_from seen (l ++ [x])
  = (View.unique_from seen l
     ++ (if bool_decide (x ∈ seen ++ l) then [] else [x]))%list.
Proof.
  revert seen. induction l as [|y l IH]; intros seen; cbn.
  - rewrite app_nil_r. by case_bool_decide.
  - case_bool_decide as Hy.
    + rewrite IH.
      rewrite (bool_decide_ext (x ∈ (seen ++ l)%list) (x ∈ (seen ++ y :: l)%list));
        [done|].
      rewrite !elem_of_app, elem_of_cons. split; [tauto|].
      intros [?|[->|?]]; tauto.
    + rewrite IH.
      rewrite (bool_decide_ext (x ∈ ((y :: seen) ++ l)%list)
                 (x ∈ (seen ++ y :: l)%list));
        [done|].
      rewrite !elem_of_app, !elem_of_cons. tauto.
Qed.

Lemma unique_snoc l x :
  View.unique (l ++ [x])
  = (View.unique l ++ (if bool_decide (x ∈ l) then [] else [x]))%list.
Proof. unfold View.unique. by rewrite unique_from_snoc. Qed.

(** X12.  The options of the Education and Marital Status selectors list
    every value of the column once, in the order in which the values first
    appear in the table: a table without rows has no options, and one more
    row at the end of a table adds its value after the options of the
    table, when the table does not have the value yet, and nothing
    otherwise. *)
Theorem options_are_the_distinct_values df :
  (NoDup (View.education_options df) ∧
   View.education_options df `sublist_of` Education <$> rows df ∧
   (∀ v, v ∈ View.education_options df ↔
         ∃ r, r ∈ rows df ∧ Education r = v) ∧
   View.education_options (mkDataFrame (columns df) []) = [] ∧
   ∀ r, View.education_options (mkDataFrame (columns df) (rows df ++ [r]))
        = (View.education_options df
           ++ (if bool_decide (Education r ∈ Education <$> rows df)
               then [] else [Education r]))%list)
  ∧
  (NoDup (View.marital_options df) ∧
   View.marital_options df `sublist_of` Marital_Status <$> rows df ∧
   (∀ v, v ∈ View.marital_options df ↔
         ∃ r, r ∈ rows df ∧ Marital_Status r = v) ∧
   View.marital_options (mkDataFrame (columns df) []) = [] ∧
   ∀ r, View.marital_options (mkDataFrame (columns df) (rows df ++ [r]))
        = (View.marital_options df
           ++ (if bool_decide (Marital_Status r ∈ Marital_Status <$> rows df)
               then [] else [Marital_Status r]))%list).
Proof.
  split; (split; [apply NoDup_unique_from|]);
    (split; [apply unique_from_sublist|]).
  - split; [apply elem_of_education_options|]. split; [reflexivity|].
    intros r. unfold View.education_options. cbn [rows].
    rewrite fmap_app. apply unique_snoc.
  - split; [apply elem_of_marital_options|]. split; [reflexivity|].
    intros r. unfold View.marital_options. cbn [rows].
    rewrite fmap_app. apply unique_snoc.
Qed.

Lemma rows_sidebar_filters se sm d :
  rows (View.sidebar_filters se sm d)
  = List.filter
      (λ r, View.isin se (Education r) && View.isin sm (Marital_Status r))
      (rows d).
Proof.
  unfold View.sidebar_filters, View.filter_marital, View.filter_education.
  cbv zeta. by rewrite !rows_getitem_mask, filter_filter.
Qed.

(** X13.  The filtered view holds the rows of its argument whose Education
    and Marital Status are both among the selected values, in their order,
    with the same columns; so an empty selection leaves no row. *)
Theorem sidebar_filters_select selected_education selected_marital d :
  let view :=
    View.sidebar_filters selected_education selected_marital d in
  columns view = columns d ∧
  rows view `sublist_of` rows d ∧
  (∀ r, r ∈ rows view ↔
        r ∈ rows d ∧ Education r ∈ selected_education ∧
        Marital_Status r ∈ selected_marital) ∧
  (selected_education = [] ∨ selected_marital = [] → rows view = []).
Proof.
  cbv zeta. split; [done|]. rewrite rows_sidebar_filters.
  assert (∀ r, r ∈ List.filter
                 (λ r, View.isin selected_education (Education r)
                       && View.isin selected_marital (Marital_Status r))
                 (rows d) ↔
               r ∈ rows d ∧ Education r ∈ selected_education ∧
               Marital_Status r ∈ selected_marital) as Hin.
  { intros r. rewrite elem_of_filter, andb_true_iff.
    unfold View.isin. by rewrite !bool_decide_eq_true. }
  split; [apply filter_sublist|]. split; [exact Hin|].
  intros Hempty.
  assert (∀ r, r ∉ List.filter
                 (λ r, View.isin selected_education (Education r)
                       && View.isin selected_marital (Marital_Status r))
                 (rows d)) as Hnone.
  { intros r (_ & He & Hm)%Hin.
    destruct Hempty as [->| ->]; [by apply elem_of_nil in He|].
    by apply elem_of_nil in Hm. }
  clear Hin. destruct (List.filter _ (rows d)) as [|r l]; [done|].
  destruct (Hnone r). constructor.
Qed.

Lemma sidebar_filters_select_witness :
  let d := clean Calendar.strptime_Ymd Calendar.parse_dmy
             (Sample.table [Sample.married_1970; Sample.born_2020]) in
  (([] : list string) = [] ∨ ["Partner"] = []) ∧
  rows (View.sidebar_filters [] ["Partner"] d) = [] ∧
  idx <$> rows (View.sidebar_filters ["Undergraduate"] ["Partner"] d)
  = [0%nat].
Proof.
  cbv zeta.
  destruct (sidebar_filters_select [] ["Partner"]
              (clean Calendar.strptime_Ymd Calendar.parse_dmy
                 (Sample.table [Sample.married_1970; Sample.born_2020])))
    as (_ & _ & _ & Hempty).
  split; [by left|]. split; [exact (Hempty (or_introl eq_refl))|].
  reflexivity.
Defined.

(** X14.  With the default selections, every option of both selectors, the
    filters of lines 116 and 120 keep every row of a frame whose rows are
    rows of the table the options were taken from. *)
Theorem default_selection_keeps_every_row df df_filtered :
  (∀ r, r ∈ rows df_filtered → r ∈ rows df) →
  View.sidebar_filters (View.education_options df) (View.marital_options df)
    df_filtered
  = df_filtered.
Proof.
  intros Hsub. apply DataFrame_eq; [done|].
  rewrite rows_sidebar_filters. apply filter_all.
  intros r Hr. apply Hsub in Hr.
  unfold View.isin. rewrite andb_true_iff, !bool_decide_eq_true.
  split; [apply elem_of_education_options|apply elem_of_marital_options];
    eauto.
Qed.

Lemma default_selection_keeps_every_row_witness :
  let df := clean Calendar.strptime_Ymd Calendar.parse_dmy
              (Sample.table [Sample.married_1970; Sample.born_2020]) in
  (∀ r, r ∈ rows df → r ∈ rows df) ∧
  View.sidebar_filters (View.education_options df) (View.marital_options df)
    df = df.
Proof.
  cbv zeta. split; [exact (λ r H, H)|].
  exact (default_selection_keeps_every_row _ _ (λ r H, H)).
Defined.

(** X15.  The two filters of the sidebar commute. *)
Theorem sidebar_filters_commute selected_education selected_marital d :
  View.filter_marital selected_marital
    (View.filter_education selected_education d)
  = View.filter_education selected_education
      (View.filter_marital selected_marital d).
Proof.
  apply DataFrame_eq; [done|].
  unfold View.filter_marital, View.filter_education.
  rewrite !rows_getitem_mask, !filter_filter.
  apply filter_ext. intros r. apply andb_comm.
Qed.

Lemma age_group_cases (a : Z) :
  View.age_group (Some a)
  = if a <=? 0 then None
    else if a <=? 30 then Some "<30"
    else if a <=? 45 then Some "30-45"
    else if a <=? 60 then Some "46-60"
    else if a <=? 100 then Some "60+"
    else None.
Proof.
  unfold View.age_group, View.cut.
  repeat match goal with
         | |- context [?x <? ?y] => destruct (Z.ltb_spec x y)
         | |- context [?x <=? ?y] => destruct (Z.leb_spec x y)
         end; cbn [andb]; try reflexivity; lia.
Qed.

(** X16.  The age groups of line 201 are the intervals 1-30, 31-45, 46-60
    and 61-100: age 30 is labelled <30, and an age of zero or less, or above
    100, has no group. *)
Theorem age_group_intervals (a : Z) :
  (a ≤ 0 → View.age_group (Some a) = None) ∧
  (1 ≤ a ≤ 30 → View.age_group (Some a) = Some "<30") ∧
  (31 ≤ a ≤ 45 → View.age_group (Some a) = Some "30-45") ∧
  (46 ≤ a ≤ 60 → View.age_group (Some a) = Some "46-60") ∧
  (61 ≤ a ≤ 100 → View.age_group (Some a) = Some "60+") ∧
  (100 < a → View.age_group (Some a) = None).
Proof.
  rewrite age_group_cases.
  repeat match goal with
         | |- context [?x <=? ?y] => destruct (Z.leb_spec x y)
         end; repeat split; intros; first [reflexivity|lia].
Qed.

Lemma age_group_intervals_witness :
  (0 ≤ 0 ∧ View.age_group (Some 0) = None) ∧
  (1 ≤ 30 ≤ 30 ∧ View.age_group (Some 30) = Some "<30") ∧
  (31 ≤ 31 ≤ 45 ∧ View.age_group (Some 31) = Some "30-45") ∧
  (100 < 101 ∧ View.age_group (Some 101) = None).
Proof.
  split; [split; [lia|]|split; [split; [lia|]|split; [split; [lia|]|
    split; [lia|]]]].
  - exact (proj1 (age_group_intervals 0) ltac:(lia)).
  - exact (proj1 (proj2 (age_group_intervals 30)) ltac:(lia)).
  - exact (proj1 (proj2 (proj2 (age_group_intervals 31))) ltac:(lia)).
  - exact (proj2 (proj2 (proj2 (proj2 (proj2 (age_group_intervals 101)))))
             ltac:(lia)).
Defined.

(** X17.  In the cleaned table a row has no age group exactly when the
    customer was born in the reference year 2014 or later; every other row
    falls in one of the four groups. *)
Theorem clean_age_group strptime parse_dayfirst df r :
  r ∈ rows (clean strptime parse_dayfirst df) →
  (View.age_group (Age r) = None ↔ 2014 ≤ Year_Birth r) ∧
  (Year_Birth r < 2014 →
   ∃ g, View.age_group (Age r) = Some g ∧
        g ∈ ["<30"; "30-45"; "46-60"; "60+"]).
Proof.
  intros (r0 & -> & _ & Hs)%elem_of_clean.
  unfold survives in Hs. destruct (Income r0) as [i|]; [|done].
  apply andb_true_iff in Hs as [Ha%Z.ltb_lt _].
  change (Age (derive_row strptime r0))
    with (Some (current_year - Year_Birth r0)).
  change (Year_Birth (derive_row strptime r0)) with (Year_Birth r0).
  rewrite age_group_cases. unfold current_year in *.
  repeat match goal with
         | |- context [?x <=? ?y] => destruct (Z.leb_spec x y)
         end;
    (split; [split; [intros; first [lia|discriminate]
                    |intros; first [reflexivity|lia]]|]);
    intros; try lia; eexists; (split; [reflexivity|]);
    rewrite !elem_of_cons; tauto.
Qed.

Lemma clean_age_group_witness :
  let df := Sample.table [Sample.married_1970; Sample.born_2020] in
  let out := rows (clean Calendar.strptime_Ymd Calendar.parse_dmy df) in
  let old := derive_row Calendar.strptime_Ymd Sample.married_1970 in
  let young := derive_row Calendar.strptime_Ymd Sample.born_2020 in
  (old ∈ out ∧ Year_Birth old < 2014 ∧
   View.age_group (Age old) = Some "30-45") ∧
  (young ∈ out ∧ 2014 ≤ Year_Birth young ∧
   View.age_group (Age young) = None).
Proof.
  cbv zeta.
  assert (H1 : derive_row Calendar.strptime_Ymd Sample.married_1970
               ∈ rows (clean Calendar.strptime_Ymd Calendar.parse_dmy
                   (Sample.table [Sample.married_1970; Sample.born_2020]))).
  { vm_compute. constructor. }
  assert (H2 : derive_row Calendar.strptime_Ymd Sample.born_2020
               ∈ rows (clean Calendar.strptime_Ymd Calendar.parse_dmy
                   (Sample.table [Sample.married_1970; Sample.born_2020]))).
  { vm_compute. do 2 constructor. }
  split.
  - split; [exact H1|]. split; [reflexivity|reflexivity].
  - split; [exact H2|]. split; [discriminate|].
    exact (proj2 (proj1 (clean_age_group _ _ _ _ H2))
             ltac:(discriminate)).
Defined.
